(** * Text extraction adapter (text_extraction.py)

    A shallow embedding of the adapter that forwards a document to the
    Azure Document Intelligence client, flattens the hierarchical answer
    into one text and a metadata dictionary, and maps failures to a
    result dictionary.

    - Python values are the inductive [pyval]; a [dict] with string keys
      is a [gmap string pyval].
    - A Python call either returns or raises: [outcome].
    - The remote service is a record of operations over a service state
      of an arbitrary type; every operation the adapter invokes is
      appended to a call log, so that "which operation was invoked" is a
      statement about that log. *)

From stdpp Require Import gmap strings list pretty.
From Stdlib Require Import ZArith.

Set Warnings "-register-all".

(** ** Python values *)

Inductive pyval : Type :=
| PNone
| PBool (b : bool)
| PInt (z : Z)
| PStr (s : string)
| PBytes (b : list Byte.byte)
| PList (l : list pyval)
| PDict (d : gmap string pyval).

(** The newline and the double quote, as one-character strings. *)
Definition nl : string := String (Ascii.ascii_of_nat 10) EmptyString.
Definition dq : string := String (Ascii.ascii_of_nat 34) EmptyString.

(** ** Exceptions

    [except Exception] catches the instances of [Exception] only; the
    classes that derive from [BaseException] directly are not caught.

    [str(e)] calls [e.__str__()], which is code of the class of [e]: it
    returns a string, [exc_message], or raises an exception of its own,
    [exc_str_raises]. *)

Inductive exc_class : Type :=
| ValueError
| TypeError
| OtherException (name : string)
| KeyboardInterrupt
| SystemExit
| GeneratorExit.

Inductive exception : Type := Build_exception {
  exc_type : exc_class;
  exc_message : string;
  exc_str_raises : option exception
}.

(** An exception of a built-in class made from one string, as in
    [ValueError("...")]: [str] renders that string. *)
Definition mk_exception (t : exc_class) (message : string) : exception :=
  {| exc_type := t; exc_message := message; exc_str_raises := None |}.

Definition isinstance_Exception (e : exception) : bool :=
  match exc_type e with
  | ValueError | TypeError | OtherException _ => true
  | KeyboardInterrupt | SystemExit | GeneratorExit => false
  end.

Inductive outcome (A : Type) : Type :=
| Return (a : A)
| Raise (e : exception).
Arguments Return {A} a.
Arguments Raise {A} e.

(** [str(e)] *)
Definition str (e : exception) : outcome string :=
  match exc_str_raises e with
  | None => Return (exc_message e)
  | Some e' => Raise e'
  end.

(** ** The analysis result of the service: pages of lines, tables of cells *)

Record DocumentLine : Type := { line_content : pyval }.
Record DocumentPage : Type := { lines : list DocumentLine }.
Record DocumentTableCell : Type := {
  row_index : pyval;
  column_index : pyval;
  cell_content : pyval
}.
Record DocumentTable : Type := { cells : list DocumentTableCell }.
Record AnalyzeResult : Type := {
  pages : list DocumentPage;
  tables : list DocumentTable
}.

(** ** Configuration ([settings] of the package's config module)

    [process] reads three values of [settings]; the config module that
    sets them is outside this file, so they are a parameter of
    [process].  The endpoint and the key are strings that may be
    absent ([None]); the model identifier is a string. *)

Record Settings : Type := {
  AZURE_FORMRECOGNIZER_ENDPOINT : option string;
  AZURE_FORMRECOGNIZER_KEY : option string;
  PREBUILT_MODEL : string
}.

(** Truth value of an optional string: [None] and [""] are falsy. *)
Definition truthy (v : option string) : bool :=
  match v with
  | None => false
  | Some s => negb (String.eqb s "")
  end.

(** ** The client of the remote service

    The Azure client library is the external collaborator: its two
    [begin_...] operations and the [result] method of the poller are
    parameters ([Service], [Poller]), free to return, to raise, and to
    change the state of the service. *)

(** [DocumentAnalysisClient(endpoint=..., credential=AzureKeyCredential(key))]:
    building the credential and the client stores the arguments and
    calls nothing. *)
Record AzureKeyCredential : Type := { credential_key : option string }.

Record DocumentAnalysisClient : Type := {
  client_endpoint : option string;
  client_credential : AzureKeyCredential
}.

Inductive call : Type :=
| AnalyzeBytes (model_id : string) (document : pyval)
| AnalyzeUrl (model_id : string) (document_url : pyval)
| PollerResult.

Section Service.
Context {S : Type}.

(** The poller that a [begin_...] operation returns; [poller.result()]
    blocks until the job ends, and returns its result or raises. *)
Record Poller : Type := { poller_result : S → outcome AnalyzeResult * S }.

Record Service : Type := {
  begin_analyze_document :
    DocumentAnalysisClient → string → pyval → S → outcome Poller * S;
  begin_analyze_document_from_url :
    DocumentAnalysisClient → string → pyval → S → outcome Poller * S
}.

(** The world of one run: the state of the service and the log of the
    operations invoked on it so far. *)
Record world : Type := { svc_state : S; call_log : list call }.

Definition M (A : Type) : Type := world → outcome A * world.

Definition ret {A} (a : A) : M A := λ w, (Return a, w).
Definition raise {A} (e : exception) : M A := λ w, (Raise e, w).
Definition bind {A B} (m : M A) (k : A → M B) : M B := λ w,
  match m w with
  | (Return a, w') => k a w'
  | (Raise e, w') => (Raise e, w')
  end.
Definition lift {A} (o : outcome A) : M A := λ w, (o, w).

(** Invoking an operation of the service logs the call and runs it on
    the state of the service. *)
Definition invoke {A} (c : call) (op : S → outcome A * S) : M A := λ w,
  let '(r, s') := op (svc_state w) in
  (r, {| svc_state := s'; call_log := call_log w ++ [c] |}).

(** [try: body except Exception as e: handler e] *)
Definition try_except_Exception {A} (body : M A) (handler : exception → M A) : M A :=
  λ w,
  match body w with
  | (Return a, w') => (Return a, w')
  | (Raise e, w') =>
      if isinstance_Exception e then handler e w' else (Raise e, w')
  end.
End Service.
Arguments Poller S : clear implicits.
Arguments Service S : clear implicits.
Arguments world S : clear implicits.
Arguments M S A : clear implicits.

Notation "'let*' x ':=' m 'in' k" := (bind m (λ x, k))
  (at level 10, x name, m at level 100, k at level 200, only parsing).

(** ** Flattening (lines 53-80 of [process]) *)

Definition type_name (v : pyval) : string :=
  match v with
  | PNone => "NoneType"
  | PBool _ => "bool"
  | PInt _ => "int"
  | PStr _ => "str"
  | PBytes _ => "bytes"
  | PList _ => "list"
  | PDict _ => "dict"
  end.

(** [v + "\n"] for an arbitrary value [v]: defined on [str] only. *)
Definition add_newline (v : pyval) : outcome string :=
  match v with
  | PStr s => Return (s +:+ nl)
  | PBytes _ => Raise (mk_exception TypeError "can't concat str to bytes")
  | PList _ =>
      Raise (mk_exception TypeError
               ("can only concatenate list (not " +:+ dq +:+ "str" +:+ dq +:+ ") to list"))
  | _ =>
      Raise (mk_exception TypeError
               ("unsupported operand type(s) for +: '" +:+ type_name v +:+ "' and 'str'"))
  end.

(** [for line in page.lines: extracted_text += line.content + "\n"] *)
Fixpoint lines_loop (extracted_text : string) (ls : list DocumentLine) : outcome string :=
  match ls with
  | [] => Return extracted_text
  | line :: ls' =>
      match add_newline (line_content line) with
      | Return s => lines_loop (extracted_text +:+ s) ls'
      | Raise e => Raise e
      end
  end.

(** [for page_num, page in enumerate(result.pages, start=1): ...] *)
Fixpoint pages_loop (page_num : nat) (extracted_text : string)
    (ps : list DocumentPage) : outcome string :=
  match ps with
  | [] => Return extracted_text
  | page :: ps' =>
      match lines_loop (extracted_text +:+ ("page number " +:+ pretty page_num +:+ nl))
                       (lines page) with
      | Return t => pages_loop (S page_num) t ps'
      | Raise e => Raise e
      end
  end.

Definition cell_record (cell : DocumentTableCell) : pyval :=
  PDict {[ "row" := row_index cell;
           "column" := column_index cell;
           "content" := cell_content cell ]}.

(** [for cell in table.cells: table_data.append({...})] *)
Fixpoint cells_loop (table_data : list pyval) (cs : list DocumentTableCell) : list pyval :=
  match cs with
  | [] => table_data
  | cell :: cs' => cells_loop (table_data ++ [cell_record cell]) cs'
  end.

(** [for table in result.tables: ...; tables.append(table_data)] *)
Fixpoint tables_loop (tables_acc : list pyval) (ts : list DocumentTable) : list pyval :=
  match ts with
  | [] => tables_acc
  | table :: ts' => tables_loop (tables_acc ++ [PList (cells_loop [] (cells table))]) ts'
  end.

Definition flatten (settings : Settings) (result : AnalyzeResult) : outcome pyval :=
  match pages_loop 1 "" (pages result) with
  | Raise e => Raise e
  | Return extracted_text =>
      let tables_list := tables_loop [] (tables result) in
      Return (PDict {[
        "result" := PStr extracted_text;
        "metadata" := PDict {[
          "pages" := PInt (Z.of_nat (length (pages result)));
          "tables" := PInt (Z.of_nat (length tables_list));
          "tables_data" := PList tables_list;
          "model" := PStr (PREBUILT_MODEL settings) ]} ]})
  end.

(** ** [process] *)

Definition credentials_error : exception :=
  mk_exception ValueError "Azure Form Recognizer credentials not configured".

Definition no_input_error : exception :=
  mk_exception ValueError "Either 'file_bytes' or 'file_url' must be provided".

Definition error_record (message : string) : pyval :=
  PDict {[ "error" := PStr message; "result" := PNone ]}.

Section Process.
Context {S : Type} (svc : Service S) (settings : Settings).

(** Lines 23-51: the credentials check, the client, the dispatch on
    the keys of [input_data], and the wait for the result. *)
Definition analyze (input_data : gmap string pyval) : M S AnalyzeResult :=
  let endpoint := AZURE_FORMRECOGNIZER_ENDPOINT settings in
  let key := AZURE_FORMRECOGNIZER_KEY settings in
  if negb (truthy endpoint) || negb (truthy key) then raise credentials_error
  else
    let client :=
      {| client_endpoint := endpoint;
         client_credential := {| credential_key := key |} |} in
    let* poller :=
      match input_data !! "file_bytes" with
      | Some file_bytes =>
          invoke (AnalyzeBytes (PREBUILT_MODEL settings) file_bytes)
                 (begin_analyze_document svc client (PREBUILT_MODEL settings) file_bytes)
      | None =>
          match input_data !! "file_url" with
          | Some file_url =>
              invoke (AnalyzeUrl (PREBUILT_MODEL settings) file_url)
                     (begin_analyze_document_from_url svc client
                        (PREBUILT_MODEL settings) file_url)
          | None => raise no_input_error
          end
      end in
    invoke PollerResult (poller_result poller).

(** The body of the [try] statement. *)
Definition process_body (input_data : gmap string pyval) : M S pyval :=
  let* result := analyze input_data in
  lift (flatten settings result).

(** The handler evaluates [str(e)] outside any [try]: what [str(e)]
    raises leaves [process]. *)
Definition process (input_data : gmap string pyval) : M S pyval :=
  try_except_Exception (process_body input_data)
    (λ e, let* message := lift (str e) in
          ret (error_record message)).
End Process.

(** ** The schema and metadata probes

    They take no argument and read nothing; they are embedded in the
    same monad as [process], so that "no side effect" is a statement
    about the world they return. *)

Definition input_schema : pyval :=
  PDict {[
    "type" := PStr "object";
    "properties" := PDict {[
      "file_bytes" := PDict {[
        "type" := PStr "string";
        "description" := PStr "Base64 encoded file bytes or binary data" ]};
      "file_url" := PDict {[
        "type" := PStr "string";
        "description" := PStr "URL to the document to extract" ]} ]};
    "required" := PList [PStr "file_bytes"] ]}.

Definition output_schema : pyval :=
  PDict {[
    "type" := PStr "object";
    "properties" := PDict {[
      "result" := PDict {[
        "type" := PStr "string";
        "description" := PStr "Extracted text content" ]};
      "metadata" := PDict {[
        "type" := PStr "object";
        "description" := PStr "Extraction metadata including pages and tables" ]} ]} ]}.

Definition description_1 : string :=
  "The Text Extraction Agent uses Azure Document Intelligence (formerly Form Recognizer) to extract text, tables, and structured data from various document types. It provides high-accuracy text extraction from PDFs, images, and scanned documents, making it an essential first step in document processing workflows.".

Definition description_2 : string :=
  "The agent processes documents using Azure Document Intelligence's prebuilt model to extract text content while preserving document structure and layout. It handles two input types: file_bytes (base64 encoded file bytes or binary data provided directly) and file_url (URL to the document stored remotely). The agent uses the DocumentAnalysisClient to begin document analysis and processes the results to extract comprehensive information.".

Definition description_3 : string :=
  "The agent extracts text content with page markers, adding " +:+ dq +:+ "page number X" +:+ dq +:+ " markers for each page to maintain document structure. It processes all lines on each page, preserving the original document layout. For tables, the agent detects and extracts table data with complete cell information including row_index, column_index, and cell content, allowing for full table reconstruction.".

Definition description_4 : string :=
  "The agent returns comprehensive results including result (extracted text with page markers), and metadata object containing pages (number of pages processed), tables (number of tables detected), tables_data (array of table objects with row, column, and content for each cell), and model (the prebuilt model used for extraction).".

Definition description_5 : string :=
  "Key capabilities include PDF text extraction with high accuracy, table detection and extraction with cell-level detail, multi-page document processing with page markers, layout analysis and structure preservation, form field extraction, key-value pair extraction, document classification, language detection, and metadata extraction (pages, tables, model information).".

Definition description_6 : string :=
  "This agent is ideal for document digitization and OCR, invoice and receipt processing, form data extraction, medical record digitization, legal document processing, financial document analysis, identity document verification, and contract and agreement processing. It serves as the foundation for all document-based workflows, extracting raw text that can then be processed by specialized agents.".

Definition description_7 : string :=
  "The agent requires either file_bytes (base64 encoded file bytes or binary data) or file_url (URL to the document). It works with PDF files (primary format), image files (JPG, PNG) for OCR, and scanned documents. The agent works best with clear, high-quality documents and provides high accuracy for printed text.".

Definition description_8 : string :=
  "Technical implementation uses Azure Document Intelligence API with the prebuilt model. The agent uses DocumentAnalysisClient with AzureKeyCredential for authentication. It supports both direct file bytes and remote file URLs, provides high-accuracy OCR capabilities, preserves document structure and layout with page markers, and extracts tables with complete cell-level formatting. The agent includes error handling for missing credentials and invalid input types. Cost: Based on Azure Document Intelligence pricing ($0.001 per page).".

Definition description : string :=
  description_1 +:+ nl +:+ nl +:+
  description_2 +:+ nl +:+ nl +:+
  description_3 +:+ nl +:+ nl +:+
  description_4 +:+ nl +:+ nl +:+
  description_5 +:+ nl +:+ nl +:+
  description_6 +:+ nl +:+ nl +:+
  description_7 +:+ nl +:+ nl +:+
  description_8.

Definition metadata_record : pyval :=
  PDict {[
    "id" := PStr "text_extraction";
    "name" := PStr "Text Extraction Agent";
    "description" := PStr description;
    "cost" := PStr "$0.001 per page";
    "api_endpoint" := PStr "/agents/text_extraction/run";
    "category" := PStr "document_processing";
    "agent_type" := PStr "generalized" ]}.

Definition get_input_schema {S : Type} : M S pyval := ret input_schema.
Definition get_output_schema {S : Type} : M S pyval := ret output_schema.
Definition get_metadata {S : Type} : M S pyval := ret metadata_record.

(** ** The flattening as the specification words it

    The text: pages in order, numbered from 1; for each page the line
    "page number N", then each line of the page, each ended by a
    newline.  The tables: per table, in order, its cells in order. *)

Definition concat_all (l : list string) : string := foldr String.append "" l.

Definition page_block (n : nat) (page_lines : list string) : string :=
  ("page number " +:+ pretty n +:+ nl) +:+
  concat_all (map (λ l, l +:+ nl) page_lines).

Definition spec_text (doc : list (list string)) : string :=
  concat_all (imap (λ i page_lines, page_block (i + 1) page_lines) doc).

Definition spec_tables_data (ts : list DocumentTable) : list pyval :=
  map (λ t, PList (map cell_record (cells t))) ts.

(** The page whose lines carry the given strings. *)
Definition page_of (page_lines : list string) : DocumentPage :=
  {| lines := map (λ s, {| line_content := PStr s |}) page_lines |}.

(** ** The two shapes of the returned dictionary *)

Definition success_shape (d : gmap string pyval) : Prop :=
  (∃ text, d !! "result" = Some (PStr text)) ∧
  (∃ md, d !! "metadata" = Some (PDict md)) ∧
  d !! "error" = None.

Definition failure_shape (d : gmap string pyval) : Prop :=
  (∃ message, d !! "error" = Some (PStr message)) ∧
  d !! "result" = Some PNone ∧
  d !! "metadata" = None.

(** ** What is asked of a service in the statements below *)

(** An exception that the handler of [process] turns into a failure
    record: an instance of [Exception] that [str] renders. *)
Definition reportable (e : exception) : Prop :=
  isinstance_Exception e = true ∧ ∃ message, str e = Return message.

Section ServiceProperties.
Context {S : Type} (svc : Service S).

Definition poller_raises_reportable_only (p : Poller S) : Prop :=
  ∀ s e s', poller_result p s = (Raise e, s') → reportable e.

(** Every exception that an operation of the service raises is an
    instance of [Exception] that [str] renders. *)
Definition raises_reportable_only : Prop :=
  (∀ c m v s e s',
      begin_analyze_document svc c m v s = (Raise e, s') →
      reportable e) ∧
  (∀ c m v s e s',
      begin_analyze_document_from_url svc c m v s = (Raise e, s') →
      reportable e) ∧
  (∀ c m v s p s',
      begin_analyze_document svc c m v s = (Return p, s') →
      poller_raises_reportable_only p) ∧
  (∀ c m v s p s',
      begin_analyze_document_from_url svc c m v s = (Return p, s') →
      poller_raises_reportable_only p).
End ServiceProperties.

(** A configured value is present and not the empty string. *)
Definition non_empty (v : option string) : Prop := ∃ s, v = Some s ∧ s ≠ "".

Definition missing_or_empty (v : option string) : Prop := v = None ∨ v = Some "".

Definition credentials_configured (settings : Settings) : Prop :=
  non_empty (AZURE_FORMRECOGNIZER_ENDPOINT settings) ∧
  non_empty (AZURE_FORMRECOGNIZER_KEY settings).

(** The client that [process] builds from the settings. *)
Definition configured_client (settings : Settings) : DocumentAnalysisClient :=
  {| client_endpoint := AZURE_FORMRECOGNIZER_ENDPOINT settings;
     client_credential := {| credential_key := AZURE_FORMRECOGNIZER_KEY settings |} |}.

(** One job on the service, as the log and the state see it: the
    operation [op] is invoked as call [c]; if it hands out a poller, the
    poller is waited for. *)
Definition run_job {S : Type} (c : call) (op : S → outcome (Poller S) * S)
    (w : world S) : outcome AnalyzeResult * world S :=
  match op (svc_state w) with
  | (Return p, s1) =>
      let '(r, s2) := poller_result p s1 in
      (r, {| svc_state := s2; call_log := call_log w ++ [c; PollerResult] |})
  | (Raise e, s1) =>
      (Raise e, {| svc_state := s1; call_log := call_log w ++ [c] |})
  end.

(** The operations that a run added to the log. *)
Definition invoked_url (log : list call) : Prop :=
  ∃ m u, AnalyzeUrl m u ∈ log.

Definition invoked_bytes (log : list call) : Prop :=
  ∃ m v, AnalyzeBytes m v ∈ log.

(** ** Stub services and sample data *)

Module Stub.
(** A service that answers every request with the same result; its
    state counts the operations it served. *)
Definition done_poller (r : AnalyzeResult) : Poller nat :=
  {| poller_result := λ n, (Return r, n + 1) |}.

Definition answering (r : AnalyzeResult) : Service nat :=
  {| begin_analyze_document := λ _ _ _ n, (Return (done_poller r), n + 1);
     begin_analyze_document_from_url := λ _ _ _ n, (Return (done_poller r), n + 1) |}.

(** A service whose two operations raise [e]. *)
Definition failing (e : exception) : Service nat :=
  {| begin_analyze_document := λ _ _ _ n, (Raise e, n + 1);
     begin_analyze_document_from_url := λ _ _ _ n, (Raise e, n + 1) |}.

(** A service that accepts the job and raises [e] while waiting. *)
Definition failing_poller (e : exception) : Poller nat :=
  {| poller_result := λ n, (Raise e, n + 1) |}.

Definition failing_later (e : exception) : Service nat :=
  {| begin_analyze_document := λ _ _ _ n, (Return (failing_poller e), n + 1);
     begin_analyze_document_from_url := λ _ _ _ n, (Return (failing_poller e), n + 1) |}.

Definition configured : Settings :=
  {| AZURE_FORMRECOGNIZER_ENDPOINT := Some "https://example.cognitiveservices.azure.com/";
     AZURE_FORMRECOGNIZER_KEY := Some "0123456789abcdef";
     PREBUILT_MODEL := "prebuilt-layout" |}.

Definition no_credentials : Settings :=
  {| AZURE_FORMRECOGNIZER_ENDPOINT := None;
     AZURE_FORMRECOGNIZER_KEY := None;
     PREBUILT_MODEL := "prebuilt-layout" |}.

Definition empty_key : Settings :=
  {| AZURE_FORMRECOGNIZER_ENDPOINT := Some "https://example.cognitiveservices.azure.com/";
     AZURE_FORMRECOGNIZER_KEY := Some "";
     PREBUILT_MODEL := "prebuilt-layout" |}.

Definition w0 : world nat := {| svc_state := 0; call_log := [] |}.

Definition pdf : pyval := PBytes [Byte.x25; Byte.x50; Byte.x44; Byte.x46].

Definition req_bytes : gmap string pyval := {[ "file_bytes" := pdf ]}.
Definition req_url : gmap string pyval := {[ "file_url" := PStr "https://example.org/a.pdf" ]}.
Definition req_both : gmap string pyval :=
  {[ "file_bytes" := pdf; "file_url" := PStr "https://example.org/a.pdf" ]}.
Definition req_none_bytes : gmap string pyval :=
  {[ "file_bytes" := PNone; "file_url" := PStr "https://example.org/a.pdf" ]}.
Definition req_neither : gmap string pyval := {[ "file_path" := PStr "/tmp/a.pdf" ]}.

Definition two_pages : AnalyzeResult :=
  {| pages := [page_of ["Hello"; "World"]; page_of ["Foo"]]; tables := [] |}.

Definition cell (r c : Z) (s : string) : DocumentTableCell :=
  {| row_index := PInt r; column_index := PInt c; cell_content := PStr s |}.

Definition one_table : AnalyzeResult :=
  {| pages := [];
     tables := [ {| cells := [cell 0 0 "A"; cell 0 1 "B"; cell 1 0 "C"] |} ] |}.

(** A page with a line whose content is missing. *)
Definition broken_page : AnalyzeResult :=
  {| pages := [ {| lines := [ {| line_content := PNone |} ] |} ]; tables := [] |}.

(** An instance of a class derived from [Exception] whose [__str__]
    returns [None]: [str] raises a [TypeError]. *)
Definition unprintable : exception :=
  {| exc_type := OtherException "BrokenError";
     exc_message := "";
     exc_str_raises :=
       Some (mk_exception TypeError "__str__ returned non-string (type NoneType)") |}.

Definition interrupt : exception := mk_exception KeyboardInterrupt "".
Definition exit_1 : exception := mk_exception SystemExit "1".
Definition quota : exception :=
  mk_exception (OtherException "HttpResponseError") "(429) Too Many Requests".
End Stub.

(** ** Notions for the further properties *)

(** The contents of all lines of a result, page after page. *)
Definition is_str (v : pyval) : bool :=
  match v with
  | PStr _ => true
  | _ => false
  end.

Definition line_contents (ps : list DocumentPage) : list pyval :=
  flat_map (λ p, map line_content (lines p)) ps.

Definition first_non_str (vs : list pyval) : option pyval :=
  find (λ v, negb (is_str v)) vs.

(** The call that the keys of a request select, if any. *)
Definition selected_call (settings : Settings) (input_data : gmap string pyval)
    : option call :=
  match input_data !! "file_bytes" with
  | Some v => Some (AnalyzeBytes (PREBUILT_MODEL settings) v)
  | None =>
      match input_data !! "file_url" with
      | Some u => Some (AnalyzeUrl (PREBUILT_MODEL settings) u)
      | None => None
      end
  end.

(** [d[key]] for a value that is a dictionary with that key. *)
Definition entry (key : string) (v : pyval) : pyval :=
  match v with
  | PDict m => default PNone (m !! key)
  | _ => PNone
  end.

Definition outcome_entry (key : string) (o : outcome pyval) : pyval :=
  match o with
  | Return v => entry key v
  | Raise _ => PNone
  end.

(** The keys that a schema declares under ['properties']. *)
Definition declared_properties (schema : pyval) : gset string :=
  match entry "properties" schema with
  | PDict m => dom m
  | _ => ∅
  end.

(** A service that answers like [Stub.answering] to a client with the
    endpoint of [Stub.configured] and turns every other client away. *)
Definition picky_service (r : AnalyzeResult) : Service nat :=
  let answer (c : DocumentAnalysisClient) (n : nat) :=
    if bool_decide (client_endpoint c = AZURE_FORMRECOGNIZER_ENDPOINT Stub.configured)
    then (Return (Stub.done_poller r), n + 1)
    else (Raise (mk_exception (OtherException "ClientAuthenticationError")
                   "(401) Access denied"), n + 1) in
  {| begin_analyze_document := λ c _ _ n, answer c n;
     begin_analyze_document_from_url := λ c _ _ n, answer c n |}.

(** The line that a page marker looks like. *)
Definition page_marker (n : nat) : string := "page number " +:+ pretty n.

(** ** Proof steps that recur *)

Ltac unfold_run :=
  unfold process, try_except_Exception, process_body, analyze,
    bind, invoke, raise, ret, lift in *.

Ltac case_credentials settings :=
  destruct (truthy (AZURE_FORMRECOGNIZER_ENDPOINT settings)) eqn:Hendpoint;
  destruct (truthy (AZURE_FORMRECOGNIZER_KEY settings)) eqn:Hkey;
  cbn [negb orb] in *.

Ltac pair_eq :=
  repeat match goal with
         | H : (_, _) = (_, _) |- _ => injection H as ? ?; subst
         | H : Return _ = Return _ |- _ => injection H as ?; subst
         | H : Raise _ = Raise _ |- _ => injection H as ?; subst
         | H : Return _ = Raise _ |- _ => discriminate H
         | H : Raise _ = Return _ |- _ => discriminate H
         end.

Ltac no_such_call Hin :=
  repeat (apply elem_of_cons in Hin as [Hin|Hin]; [discriminate Hin|]);
  by apply elem_of_nil in Hin.

(** * Properties *)

(** ** Strings *)

Lemma string_app_assoc (s t u : string) : (s +:+ t) +:+ u = s +:+ (t +:+ u).
Proof.
  induction s as [|a s IH]; [reflexivity|].
  change (String a ((s +:+ t) +:+ u) = String a (s +:+ (t +:+ u))).
  by rewrite IH.
Qed.

Lemma string_app_nil_r (s : string) : s +:+ "" = s.
Proof.
  induction s as [|a s IH]; [reflexivity|].
  change (String a (s +:+ "") = String a s). by rewrite IH.
Qed.

Lemma concat_all_cons (s : string) (l : list string) :
  concat_all (s :: l) = s +:+ concat_all l.
Proof. reflexivity. Qed.

(** ** The loops of the flattening *)

Lemma lines_loop_strings (acc : string) (ss : list string) :
  lines_loop acc (lines (page_of ss)) =
  Return (acc +:+ concat_all (map (λ l, l +:+ nl) ss)).
Proof.
  revert acc. induction ss as [|s ss IH]; intros acc.
  - cbn. by rewrite string_app_nil_r.
  - cbn [page_of lines map lines_loop line_content add_newline].
    cbn [page_of lines] in IH. rewrite IH.
    by rewrite concat_all_cons, string_app_assoc.
Qed.

Lemma add_newline_Return (v : pyval) (t : string) :
  add_newline v = Return t → ∃ s, v = PStr s ∧ t = s +:+ nl.
Proof. destruct v; cbn; intros H; try discriminate. injection H as <-. eauto. Qed.

Lemma add_newline_Raise (v : pyval) (e : exception) :
  add_newline v = Raise e → exc_type e = TypeError.
Proof. destruct v; cbn; intros H; try discriminate; by injection H as <-. Qed.

Lemma lines_loop_Return (acc t : string) (ls : list DocumentLine) :
  lines_loop acc ls = Return t → ∃ ss, ls = lines (page_of ss).
Proof.
  revert acc. induction ls as [|[v] ls IH]; intros acc H.
  - by exists [].
  - cbn in H. destruct (add_newline v) as [s|e] eqn:Hv; [|discriminate].
    apply add_newline_Return in Hv as (s' & -> & _).
    apply IH in H as (ss & ->). by exists (s' :: ss).
Qed.

Lemma lines_loop_Raise (acc : string) (ls : list DocumentLine) (e : exception) :
  lines_loop acc ls = Raise e → exc_type e = TypeError.
Proof.
  revert acc. induction ls as [|[v] ls IH]; intros acc H; [discriminate|].
  cbn in H. destruct (add_newline v) as [s|e'] eqn:Hv.
  - eauto.
  - injection H as <-. eauto using add_newline_Raise.
Qed.

Lemma page_of_lines (p : DocumentPage) (ss : list string) :
  lines p = lines (page_of ss) → p = page_of ss.
Proof. destruct p as [ls]. cbn. by intros ->. Qed.

Lemma pages_loop_strings (n : nat) (acc : string) (doc : list (list string)) :
  pages_loop n acc (map page_of doc) =
  Return (acc +:+ concat_all (imap (λ i page_lines, page_block (i + n) page_lines) doc)).
Proof.
  revert n acc. induction doc as [|ss doc IH]; intros n acc.
  - cbn. by rewrite string_app_nil_r.
  - cbn [map pages_loop]. rewrite lines_loop_strings, IH.
    rewrite imap_cons, concat_all_cons.
    rewrite (imap_ext ((λ i page_lines, page_block (i + n) page_lines) ∘ S)
               (λ i page_lines, page_block (i + S n) page_lines) doc)
      by (intros i x _; cbn; f_equal; lia).
    cbn [Nat.add]. unfold page_block at 2.
    by rewrite !string_app_assoc.
Qed.

Lemma pages_loop_Return (n : nat) (acc t : string) (ps : list DocumentPage) :
  pages_loop n acc ps = Return t → ∃ doc, ps = map page_of doc.
Proof.
  revert n acc. induction ps as [|p ps IH]; intros n acc H.
  - by exists [].
  - cbn in H.
    destruct (lines_loop _ (lines p)) as [t'|e] eqn:Hl; [|discriminate].
    apply lines_loop_Return in Hl as (ss & Hp). apply page_of_lines in Hp as ->.
    apply IH in H as (doc & ->). by exists (ss :: doc).
Qed.

Lemma pages_loop_Raise (n : nat) (acc : string) (ps : list DocumentPage) (e : exception) :
  pages_loop n acc ps = Raise e → exc_type e = TypeError.
Proof.
  revert n acc. induction ps as [|p ps IH]; intros n acc H; [discriminate|].
  cbn in H. destruct (lines_loop _ (lines p)) as [t'|e'] eqn:Hl.
  - eauto.
  - injection H as <-. eauto using lines_loop_Raise.
Qed.

Lemma cells_loop_spec (acc : list pyval) (cs : list DocumentTableCell) :
  cells_loop acc cs = acc ++ map cell_record cs.
Proof.
  revert acc. induction cs as [|c cs IH]; intros acc; cbn.
  - by rewrite app_nil_r.
  - by rewrite IH, <- app_assoc.
Qed.

Lemma tables_loop_spec (acc : list pyval) (ts : list DocumentTable) :
  tables_loop acc ts = acc ++ spec_tables_data ts.
Proof.
  revert acc. induction ts as [|t ts IH]; intros acc; cbn.
  - by rewrite app_nil_r.
  - by rewrite IH, cells_loop_spec, <- app_assoc.
Qed.

(** ** The flattening as a whole *)

Lemma spec_text_pages_loop (doc : list (list string)) :
  pages_loop 1 "" (map page_of doc) = Return (spec_text doc).
Proof. by rewrite pages_loop_strings. Qed.

Lemma flatten_strings (settings : Settings) (result : AnalyzeResult)
    (doc : list (list string)) :
  pages result = map page_of doc →
  flatten settings result =
  Return (PDict {[
    "result" := PStr (spec_text doc);
    "metadata" := PDict {[
      "pages" := PInt (Z.of_nat (length (pages result)));
      "tables" := PInt (Z.of_nat (length (tables result)));
      "tables_data" := PList (spec_tables_data (tables result));
      "model" := PStr (PREBUILT_MODEL settings) ]} ]}).
Proof.
  intros Hp. unfold flatten. rewrite Hp, spec_text_pages_loop.
  rewrite tables_loop_spec. cbn [app].
  unfold spec_tables_data at 1. by rewrite !length_map.
Qed.

Lemma flatten_Return (settings : Settings) (result : AnalyzeResult) (d : pyval) :
  flatten settings result = Return d →
  ∃ doc, pages result = map page_of doc.
Proof.
  unfold flatten. destruct (pages_loop 1 "" (pages result)) as [t|e] eqn:Hl;
    [|discriminate].
  intros _. eauto using pages_loop_Return.
Qed.

Lemma flatten_Raise (settings : Settings) (result : AnalyzeResult) (e : exception) :
  flatten settings result = Raise e → exc_type e = TypeError.
Proof.
  unfold flatten. destruct (pages_loop 1 "" (pages result)) as [t|e'] eqn:Hl;
    [discriminate|].
  intros [= <-]. eauto using pages_loop_Raise.
Qed.

Lemma add_newline_Raise_renders (v : pyval) (e : exception) :
  add_newline v = Raise e → exc_str_raises e = None.
Proof. destruct v; cbn; intros H; try discriminate; by injection H as <-. Qed.

Lemma lines_loop_Raise_renders (acc : string) (ls : list DocumentLine) (e : exception) :
  lines_loop acc ls = Raise e → exc_str_raises e = None.
Proof.
  revert acc. induction ls as [|[v] ls IH]; intros acc H; [discriminate|].
  cbn in H. destruct (add_newline v) as [s|e'] eqn:Hv.
  - eauto.
  - injection H as <-. eauto using add_newline_Raise_renders.
Qed.

Lemma pages_loop_Raise_renders (n : nat) (acc : string) (ps : list DocumentPage)
    (e : exception) :
  pages_loop n acc ps = Raise e → exc_str_raises e = None.
Proof.
  revert n acc. induction ps as [|p ps IH]; intros n acc H; [discriminate|].
  cbn in H. destruct (lines_loop _ (lines p)) as [t'|e'] eqn:Hl.
  - eauto.
  - injection H as <-. eauto using lines_loop_Raise_renders.
Qed.

(** What the flattening raises is a [TypeError] that [str] renders. *)
Lemma flatten_Raise_renders (settings : Settings) (result : AnalyzeResult)
    (e : exception) :
  flatten settings result = Raise e → str e = Return (exc_message e).
Proof.
  unfold flatten, str. destruct (pages_loop 1 "" (pages result)) as [t|e'] eqn:Hl;
    [discriminate|].
  intros [= <-]. by rewrite (pages_loop_Raise_renders _ _ _ _ Hl).
Qed.

Lemma TypeError_is_Exception (e : exception) :
  exc_type e = TypeError → isinstance_Exception e = true.
Proof. unfold isinstance_Exception. by intros ->. Qed.

(** ** The shapes of the two records *)

Lemma flatten_Raise_reportable (settings : Settings) (result : AnalyzeResult)
    (e : exception) :
  flatten settings result = Raise e → reportable e.
Proof.
  intros H. split.
  - eauto using flatten_Raise, TypeError_is_Exception.
  - eauto using flatten_Raise_renders.
Qed.

Lemma error_record_shape (message : string) :
  ∃ d, error_record message = PDict d ∧ failure_shape d ∧ ¬ success_shape d.
Proof.
  eexists. split; [reflexivity|]. split.
  - split; [by exists message|]. by split.
  - intros ([text Ht] & _). discriminate Ht.
Qed.

Lemma success_record_shape (text : string) (md : gmap string pyval) :
  success_shape {[ "result" := PStr text; "metadata" := PDict md ]} ∧
  ¬ failure_shape {[ "result" := PStr text; "metadata" := PDict md ]}.
Proof.
  split.
  - split; [by exists text|]. split; [by exists md|done].
  - intros ([message Hm] & _). discriminate Hm.
Qed.

(** ** The body of [process] *)

Lemma truthy_non_empty (v : option string) : truthy v = true ↔ non_empty v.
Proof.
  unfold non_empty. destruct v as [s|]; cbn.
  - rewrite negb_true_iff, String.eqb_neq. split; [eauto|]. by intros (? & [= <-] & ?).
  - split; [done|]. by intros (? & ? & _).
Qed.

Lemma truthy_missing_or_empty (v : option string) :
  truthy v = false ↔ missing_or_empty v.
Proof.
  unfold missing_or_empty. destruct v as [s|]; cbn.
  - rewrite negb_false_iff, String.eqb_eq. split; [intros ->; by right|].
    by intros [|[= ->]].
  - split; [by left|done].
Qed.

Lemma not_configured (settings : Settings) :
  ¬ credentials_configured settings ↔
  missing_or_empty (AZURE_FORMRECOGNIZER_ENDPOINT settings) ∨
  missing_or_empty (AZURE_FORMRECOGNIZER_KEY settings).
Proof.
  unfold credentials_configured.
  rewrite <- !truthy_non_empty, <- !truthy_missing_or_empty.
  destruct (truthy _), (truthy _); intuition discriminate.
Qed.

Section BodyProperties.
Context {S : Type} (svc : Service S) (settings : Settings).
Implicit Types (input_data : gmap string pyval) (w : world S).

Lemma analyze_not_configured input_data w :
  ¬ credentials_configured settings →
  analyze svc settings input_data w = (Raise credentials_error, w).
Proof.
  unfold credentials_configured. rewrite <- !truthy_non_empty.
  intros Hc. unfold_run.
  case_credentials settings; try reflexivity. by destruct Hc.
Qed.

(** Whatever [analyze] raises is one of the two errors of the adapter
    or was raised by an operation of the service. *)
Lemma analyze_Raise input_data w e w' :
  analyze svc settings input_data w = (Raise e, w') →
  e = credentials_error ∨ e = no_input_error ∨
  (∃ c m v s s', begin_analyze_document svc c m v s = (Raise e, s')) ∨
  (∃ c m v s s', begin_analyze_document_from_url svc c m v s = (Raise e, s')) ∨
  (∃ c m v s p s' s1 s2,
      (begin_analyze_document svc c m v s = (Return p, s') ∨
       begin_analyze_document_from_url svc c m v s = (Return p, s')) ∧
      poller_result p s1 = (Raise e, s2)).
Proof.
  unfold_run. case_credentials settings; intros H; pair_eq; auto.
  destruct (input_data !! "file_bytes") as [v|].
  - destruct (begin_analyze_document _ _ _ _ _) as [[p|e'] s1] eqn:Hb.
    + cbn [svc_state call_log] in H.
      destruct (poller_result p s1) as [r s2] eqn:Hr. pair_eq.
      do 4 right. do 4 eexists. exists p. eauto 10.
    + pair_eq. right. right. left. eauto 10.
  - destruct (input_data !! "file_url") as [u|].
    + destruct (begin_analyze_document_from_url _ _ _ _ _) as [[p|e'] s1] eqn:Hb.
      * cbn [svc_state call_log] in H.
        destruct (poller_result p s1) as [r s2] eqn:Hr. pair_eq.
        do 4 right. do 4 eexists. exists p. eauto 10.
      * pair_eq. right. right. right. left. eauto 10.
    + pair_eq. auto.
Qed.

Lemma analyze_Raise_reportable input_data w e w' :
  raises_reportable_only svc →
  analyze svc settings input_data w = (Raise e, w') →
  reportable e.
Proof.
  intros (Hb & Hu & Hpb & Hpu) H.
  apply analyze_Raise in H
    as [-> | [-> | [(c & m & v & s & s' & H) | [(c & m & v & s & s' & H) |
          (c & m & v & s & p & s' & s1 & s2 & [H|H] & Hr)]]]];
    eauto.
  - split; [reflexivity|by eexists].
  - split; [reflexivity|by eexists].
  - eapply Hpb; eauto.
  - eapply Hpu; eauto.
Qed.

Lemma process_body_Return input_data w d w' :
  process_body svc settings input_data w = (Return d, w') →
  ∃ result, analyze svc settings input_data w = (Return result, w') ∧
            flatten settings result = Return d.
Proof.
  unfold process_body, bind, lift.
  destruct (analyze svc settings input_data w) as [[r|e] w1]; intros H; pair_eq.
  eauto.
Qed.

Lemma process_body_Raise input_data w e w' :
  process_body svc settings input_data w = (Raise e, w') →
  analyze svc settings input_data w = (Raise e, w') ∨
  ∃ result, analyze svc settings input_data w = (Return result, w') ∧
            flatten settings result = Raise e.
Proof.
  unfold process_body, bind, lift.
  destruct (analyze svc settings input_data w) as [[r|e'] w1]; intros H; pair_eq;
    eauto.
Qed.

Lemma process_body_Raise_reportable input_data w e w' :
  raises_reportable_only svc →
  process_body svc settings input_data w = (Raise e, w') →
  reportable e.
Proof.
  intros Hsvc [H | (r & _ & H)]%process_body_Raise.
  - eauto using analyze_Raise_reportable.
  - eauto using flatten_Raise_reportable.
Qed.

Lemma process_of_body_Return input_data w d w' :
  process_body svc settings input_data w = (Return d, w') →
  process svc settings input_data w = (Return d, w').
Proof. unfold process, try_except_Exception. by intros ->. Qed.

(** What [process] makes of an exception of its body: an instance of
    [Exception] is rendered by [str] into the failure record, unless
    [str] itself raises; any other exception leaves [process]. *)
Lemma process_of_body_Raise input_data w e w' :
  process_body svc settings input_data w = (Raise e, w') →
  process svc settings input_data w =
  if isinstance_Exception e then
    match str e with
    | Return message => (Return (error_record message), w')
    | Raise e' => (Raise e', w')
    end
  else (Raise e, w').
Proof.
  unfold process, try_except_Exception, bind, lift, ret. intros ->.
  destruct (isinstance_Exception e); [|done]. by destruct (str e).
Qed.

Lemma process_of_body_Raise_reportable input_data w e w' message :
  process_body svc settings input_data w = (Raise e, w') →
  isinstance_Exception e = true →
  str e = Return message →
  process svc settings input_data w = (Return (error_record message), w').
Proof. intros Hbody He Hstr. by rewrite (process_of_body_Raise _ _ _ _ Hbody), He, Hstr. Qed.

(** [process] raises exactly when its body raises an exception that is
    not an instance of [Exception], or one whose [str] raises. *)
Lemma process_Raise_iff input_data w e w' :
  process svc settings input_data w = (Raise e, w') ↔
  (process_body svc settings input_data w = (Raise e, w') ∧
   isinstance_Exception e = false) ∨
  (∃ e0, process_body svc settings input_data w = (Raise e0, w') ∧
         isinstance_Exception e0 = true ∧ str e0 = Raise e).
Proof.
  destruct (process_body svc settings input_data w) as [[d|e0] w1] eqn:Hbody.
  - rewrite (process_of_body_Return _ _ _ _ Hbody). split; [discriminate|].
    intros [[? _] | (? & ? & _)]; discriminate.
  - rewrite (process_of_body_Raise _ _ _ _ Hbody).
    destruct (isinstance_Exception e0) eqn:He.
    + destruct (str e0) as [message|e'] eqn:Hstr.
      * split; [discriminate|].
        intros [[[= -> ->] ?] | (? & [= <- <-] & _ & ?)]; congruence.
      * split.
        -- intros [= -> ->]. right. eauto.
        -- intros [[[= -> ->] ?] | (? & [= <- <-] & _ & ?)]; congruence.
    + split.
      * intros [= -> ->]. by left.
      * intros [[[= -> ->] _] | (? & [= <- <-] & ? & _)]; congruence.
Qed.
End BodyProperties.

(** ** The dispatch, once the credentials are configured *)

Section Dispatch.
Context {S : Type} (svc : Service S) (settings : Settings).
Implicit Types (input_data : gmap string pyval) (w : world S).

Lemma analyze_configured input_data w :
  credentials_configured settings →
  analyze svc settings input_data w =
  match input_data !! "file_bytes" with
  | Some v =>
      run_job (AnalyzeBytes (PREBUILT_MODEL settings) v)
        (begin_analyze_document svc (configured_client settings)
           (PREBUILT_MODEL settings) v) w
  | None =>
      match input_data !! "file_url" with
      | Some u =>
          run_job (AnalyzeUrl (PREBUILT_MODEL settings) u)
            (begin_analyze_document_from_url svc (configured_client settings)
               (PREBUILT_MODEL settings) u) w
      | None => (Raise no_input_error, w)
      end
  end.
Proof.
  unfold credentials_configured. rewrite <- !truthy_non_empty. intros [He Hk].
  unfold analyze, configured_client, run_job, bind, invoke, raise.
  rewrite He, Hk. cbn [negb orb].
  destruct (input_data !! "file_bytes") as [v|].
  - destruct (begin_analyze_document _ _ _ _ _) as [[p|e] s1]; [|done].
    cbn [svc_state call_log]. destruct (poller_result p s1) as [r s2].
    by rewrite <- app_assoc.
  - destruct (input_data !! "file_url") as [u|]; [|done].
    destruct (begin_analyze_document_from_url _ _ _ _ _) as [[p|e] s1]; [|done].
    cbn [svc_state call_log]. destruct (poller_result p s1) as [r s2].
    by rewrite <- app_assoc.
Qed.

Lemma run_job_log c (op : S → outcome (Poller S) * S) w r w' :
  run_job c op w = (r, w') →
  call_log w' = call_log w ++ [c] ∨ call_log w' = call_log w ++ [c; PollerResult].
Proof.
  unfold run_job. destruct (op (svc_state w)) as [[p|e] s1].
  - destruct (poller_result p s1) as [r' s2]. intros [= <- <-]. by right.
  - intros [= <- <-]. by left.
Qed.

(** What [analyze] returns is what the wait on the poller returned, for
    the operation that the keys of the request select. *)
Lemma analyze_Return input_data w result w' :
  analyze svc settings input_data w = (Return result, w') →
  credentials_configured settings ∧
  ∃ c op p s1,
    ((∃ v, input_data !! "file_bytes" = Some v ∧
           c = AnalyzeBytes (PREBUILT_MODEL settings) v ∧
           op = begin_analyze_document svc (configured_client settings)
                  (PREBUILT_MODEL settings) v) ∨
     (∃ u, input_data !! "file_bytes" = None ∧
           input_data !! "file_url" = Some u ∧
           c = AnalyzeUrl (PREBUILT_MODEL settings) u ∧
           op = begin_analyze_document_from_url svc (configured_client settings)
                  (PREBUILT_MODEL settings) u)) ∧
    op (svc_state w) = (Return p, s1) ∧
    poller_result p s1 = (Return result, svc_state w') ∧
    call_log w' = call_log w ++ [c; PollerResult].
Proof.
  intros Han.
  assert (Hc : credentials_configured settings).
  { destruct (truthy (AZURE_FORMRECOGNIZER_ENDPOINT settings)) eqn:He;
      destruct (truthy (AZURE_FORMRECOGNIZER_KEY settings)) eqn:Hk;
      try (unfold analyze, raise in Han; rewrite He, Hk in Han; discriminate Han).
    split; by apply truthy_non_empty. }
  split; [done|]. rewrite analyze_configured in Han by done.
  assert (Hjob : ∀ c (op : S → outcome (Poller S) * S),
             run_job c op w = (Return result, w') →
             ∃ p s1, op (svc_state w) = (Return p, s1) ∧
                     poller_result p s1 = (Return result, svc_state w') ∧
                     call_log w' = call_log w ++ [c; PollerResult]).
  { intros c op. unfold run_job. destruct (op (svc_state w)) as [[p|e] s1]; [|done].
    destruct (poller_result p s1) as [r s2] eqn:Hr. intros [= -> <-]. eauto. }
  destruct (input_data !! "file_bytes") as [v|] eqn:Hb.
  - apply Hjob in Han as (p & s1 & ? & ? & ?). eexists _, _, p, s1.
    split; [left; eauto|done].
  - destruct (input_data !! "file_url") as [u|] eqn:Hu; [|discriminate].
    apply Hjob in Han as (p & s1 & ? & ? & ?). eexists _, _, p, s1.
    split; [right; eauto|done].
Qed.

(** [process] leaves the world as its body leaves it. *)
Lemma process_world input_data w :
  (process svc settings input_data w).2 = (process_body svc settings input_data w).2.
Proof.
  destruct (process_body svc settings input_data w) as [[d|e] w'] eqn:Hbody.
  - by rewrite (process_of_body_Return _ _ _ _ _ _ Hbody).
  - rewrite (process_of_body_Raise _ _ _ _ _ _ Hbody).
    destruct (isinstance_Exception e); [|done]. by destruct (str e).
Qed.

Lemma process_body_world input_data w :
  (process_body svc settings input_data w).2 = (analyze svc settings input_data w).2.
Proof.
  unfold process_body, bind, lift.
  by destruct (analyze svc settings input_data w) as [[r|e] w'].
Qed.

(** A call whose credentials are not configured, or that carries
    neither key, ends in the [except] clause with the world untouched. *)
Lemma process_not_configured input_data w :
  ¬ credentials_configured settings →
  process svc settings input_data w =
  (Return (error_record "Azure Form Recognizer credentials not configured"), w).
Proof.
  intros Hc. unfold process, try_except_Exception, process_body, bind.
  by rewrite analyze_not_configured.
Qed.

Lemma process_no_input input_data w :
  credentials_configured settings →
  input_data !! "file_bytes" = None →
  input_data !! "file_url" = None →
  process svc settings input_data w =
  (Return (error_record "Either 'file_bytes' or 'file_url' must be provided"), w).
Proof.
  intros Hc Hb Hu. unfold process, try_except_Exception, process_body, bind.
  by rewrite analyze_configured, Hb, Hu.
Qed.
End Dispatch.

(** * The claims *)

(** C1, as amended.  For every input and every behaviour of the remote
    service in which the exceptions raised are instances of
    [Exception] that [str] renders, [process] returns a dictionary and
    propagates nothing; the dictionary has exactly one of the two
    shapes: the success record (['result'] a string, ['metadata'] a
    dictionary, no ['error']) or the failure record (['error'] a string,
    ['result'] [None], no ['metadata']). *)
Theorem process_returns_exactly_one_shape {S : Type} (svc : Service S)
    (settings : Settings) (input_data : gmap string pyval) (w : world S) :
  raises_reportable_only svc →
  ∃ d w',
    process svc settings input_data w = (Return (PDict d), w') ∧
    ((success_shape d ∧ ¬ failure_shape d) ∨
     (failure_shape d ∧ ¬ success_shape d)).
Proof.
  intros Hsvc.
  destruct (process_body svc settings input_data w) as [[d|e] w'] eqn:Hbody.
  - rewrite (process_of_body_Return _ _ _ _ _ _ Hbody).
    apply process_body_Return in Hbody as (result & _ & Hflat).
    destruct (flatten_Return _ _ _ Hflat) as [doc Hdoc].
    rewrite (flatten_strings _ _ _ Hdoc) in Hflat. injection Hflat as <-.
    eexists _, w'. split; [reflexivity|]. left. apply success_record_shape.
  - destruct (process_body_Raise_reportable _ _ _ _ _ _ Hsvc Hbody)
      as (He & message & Hstr).
    rewrite (process_of_body_Raise_reportable _ _ _ _ _ _ _ Hbody He Hstr).
    destruct (error_record_shape message) as (d & -> & Hshape).
    eexists d, w'. split; [reflexivity|]. by right.
Qed.

(** C1 at a service that answers "too many requests". *)
Lemma process_returns_exactly_one_shape_witness :
  raises_reportable_only (Stub.failing Stub.quota) ∧
  ∃ d w',
    process (Stub.failing Stub.quota) Stub.configured Stub.req_bytes Stub.w0 =
      (Return (PDict d), w') ∧
    ((success_shape d ∧ ¬ failure_shape d) ∨
     (failure_shape d ∧ ¬ success_shape d)).
Proof.
  assert (H : raises_reportable_only (Stub.failing Stub.quota)).
  { unfold raises_reportable_only, poller_raises_reportable_only.
    split; [|split; [|split]]; intros c m v s; intros; cbn in *; simplify_eq;
      (split; [reflexivity|by eexists]). }
  split; [exact H|].
  exact (process_returns_exactly_one_shape (Stub.failing Stub.quota)
           Stub.configured Stub.req_bytes Stub.w0 H).
Defined.

(** C1 as stated fails: a service operation that raises
    [KeyboardInterrupt], which [except Exception] does not catch, makes
    [process] raise instead of returning a dictionary. *)
Lemma process_propagates_KeyboardInterrupt :
  process (Stub.failing Stub.interrupt) Stub.configured Stub.req_bytes Stub.w0 =
    (Raise Stub.interrupt,
     {| svc_state := 1; call_log := [AnalyzeBytes "prebuilt-layout" Stub.pdf] |}) ∧
  ¬ ∃ d w',
      process (Stub.failing Stub.interrupt) Stub.configured Stub.req_bytes Stub.w0 =
        (Return d, w').
Proof.
  assert (H : process (Stub.failing Stub.interrupt) Stub.configured Stub.req_bytes Stub.w0 =
    (Raise Stub.interrupt,
     {| svc_state := 1; call_log := [AnalyzeBytes "prebuilt-layout" Stub.pdf] |}))
    by (vm_compute; reflexivity).
  split; [exact H|]. intros (d & w' & Hd). rewrite H in Hd. discriminate Hd.
Qed.

(** ** The text and the metadata of a successful call *)

(** A successful call is one whose analysis returned a result that the
    flattening accepted. *)
Lemma process_success_inv {S : Type} (svc : Service S) (settings : Settings)
    (input_data : gmap string pyval) (w : world S) d w' :
  process svc settings input_data w = (Return (PDict d), w') →
  success_shape d →
  ∃ result doc,
    analyze svc settings input_data w = (Return result, w') ∧
    pages result = map page_of doc ∧
    flatten settings result = Return (PDict d).
Proof.
  intros Hrun Hshape.
  destruct (process_body svc settings input_data w) as [[d'|e] w1] eqn:Hbody.
  - rewrite (process_of_body_Return _ _ _ _ _ _ Hbody) in Hrun.
    injection Hrun as -> ->.
    apply process_body_Return in Hbody as (result & Han & Hflat).
    destruct (flatten_Return _ _ _ Hflat) as [doc Hdoc]. eauto.
  - rewrite (process_of_body_Raise _ _ _ _ _ _ Hbody) in Hrun.
    destruct (isinstance_Exception e); [|discriminate].
    destruct (str e) as [message|e']; [|discriminate].
    injection Hrun as <- _.
    destruct Hshape as [[text Htext] _]. discriminate Htext.
Qed.

Lemma process_success {S : Type} (svc : Service S) (settings : Settings)
    (input_data : gmap string pyval) (w : world S) result w' doc :
  analyze svc settings input_data w = (Return result, w') →
  pages result = map page_of doc →
  process svc settings input_data w = (flatten settings result, w') ∧
  flatten settings result =
  Return (PDict {[
    "result" := PStr (spec_text doc);
    "metadata" := PDict {[
      "pages" := PInt (Z.of_nat (length (pages result)));
      "tables" := PInt (Z.of_nat (length (tables result)));
      "tables_data" := PList (spec_tables_data (tables result));
      "model" := PStr (PREBUILT_MODEL settings) ]} ]}).
Proof.
  intros Han Hdoc. pose proof (flatten_strings settings _ _ Hdoc) as Hflat.
  split; [|done].
  unfold process, try_except_Exception, process_body, bind, lift.
  by rewrite Han, Hflat.
Qed.

(** C2.  For every successful call the returned ['result'] is the text
    that lists the pages of the service's result in order, numbered from
    1: for each page the line "page number N", then each line of the
    page, each ended by a newline; and a call whose result has string
    lines does succeed with that text.  For a result of two pages with
    lines Hello, World and Foo the text is
    "page number 1\nHello\nWorld\npage number 2\nFoo\n". *)
Theorem result_text_lists_pages {S : Type} (svc : Service S) (settings : Settings)
    (input_data : gmap string pyval) (w : world S) :
  (∀ d w',
      process svc settings input_data w = (Return (PDict d), w') →
      success_shape d →
      ∃ result doc,
        analyze svc settings input_data w = (Return result, w') ∧
        pages result = map page_of doc ∧
        d !! "result" = Some (PStr (spec_text doc))) ∧
  (∀ result w' doc,
      analyze svc settings input_data w = (Return result, w') →
      pages result = map page_of doc →
      ∃ d, process svc settings input_data w = (Return (PDict d), w') ∧
           success_shape d ∧
           d !! "result" = Some (PStr (spec_text doc))) ∧
  (∀ result w',
      analyze svc settings input_data w = (Return result, w') →
      pages result = [page_of ["Hello"; "World"]; page_of ["Foo"]] →
      ∃ d, process svc settings input_data w = (Return (PDict d), w') ∧
           d !! "result" =
             Some (PStr ("page number 1" +:+ nl +:+ "Hello" +:+ nl +:+ "World" +:+ nl +:+
                         "page number 2" +:+ nl +:+ "Foo" +:+ nl))).
Proof.
  split; [|split].
  - intros d w' Hrun Hshape.
    destruct (process_success_inv _ _ _ _ _ _ Hrun Hshape)
      as (result & doc & Han & Hdoc & Hflat).
    exists result, doc. split; [done|]. split; [done|].
    rewrite (flatten_strings _ _ _ Hdoc) in Hflat. by injection Hflat as <-.
  - intros result w' doc Han Hdoc.
    destruct (process_success _ _ _ _ _ _ _ Han Hdoc) as [-> ->].
    eexists. split; [reflexivity|]. split; [apply success_record_shape|done].
  - intros result w' Han Hdoc.
    destruct (process_success _ _ _ _ _ _ [["Hello"; "World"]; ["Foo"]] Han Hdoc)
      as [-> ->].
    eexists. split; [reflexivity|]. done.
Qed.

(** C2 at the stub that answers with the two pages of the example. *)
Lemma result_text_lists_pages_witness :
  ∃ d, process (Stub.answering Stub.two_pages) Stub.configured Stub.req_bytes Stub.w0 =
         (Return (PDict d),
          {| svc_state := 2;
             call_log := [AnalyzeBytes "prebuilt-layout" Stub.pdf; PollerResult] |}) ∧
       d !! "result" =
         Some (PStr ("page number 1" +:+ nl +:+ "Hello" +:+ nl +:+ "World" +:+ nl +:+
                     "page number 2" +:+ nl +:+ "Foo" +:+ nl)).
Proof.
  apply (proj2 (proj2 (result_text_lists_pages (Stub.answering Stub.two_pages)
                         Stub.configured Stub.req_bytes Stub.w0)) Stub.two_pages).
  - vm_compute. reflexivity.
  - reflexivity.
Defined.

(** C3.  For every successful call the returned metadata holds
    ['pages'], the number of pages of the service's result, ['tables'],
    the number of its tables, ['tables_data'], per table in service
    order the cells in service order as row/column/content records
    (nothing sorted, nothing dropped), and ['model'], the fixed model
    identifier.  For one table with the cells (0,0,A), (0,1,B), (1,0,C),
    ['tables'] is 1 and the first entry of ['tables_data'] is those
    three records in that order. *)
Theorem metadata_counts_and_tables {S : Type} (svc : Service S) (settings : Settings)
    (input_data : gmap string pyval) (w : world S) :
  (∀ d w',
      process svc settings input_data w = (Return (PDict d), w') →
      success_shape d →
      ∃ result,
        analyze svc settings input_data w = (Return result, w') ∧
        d !! "metadata" =
          Some (PDict {[
            "pages" := PInt (Z.of_nat (length (pages result)));
            "tables" := PInt (Z.of_nat (length (tables result)));
            "tables_data" := PList (spec_tables_data (tables result));
            "model" := PStr (PREBUILT_MODEL settings) ]})) ∧
  (∀ result w' doc,
      analyze svc settings input_data w = (Return result, w') →
      pages result = map page_of doc →
      ∃ d, process svc settings input_data w = (Return (PDict d), w') ∧
           success_shape d ∧
           d !! "metadata" =
             Some (PDict {[
               "pages" := PInt (Z.of_nat (length (pages result)));
               "tables" := PInt (Z.of_nat (length (tables result)));
               "tables_data" := PList (spec_tables_data (tables result));
               "model" := PStr (PREBUILT_MODEL settings) ]})) ∧
  (∀ result w' doc,
      analyze svc settings input_data w = (Return result, w') →
      pages result = map page_of doc →
      tables result =
        [ {| cells := [Stub.cell 0 0 "A"; Stub.cell 0 1 "B"; Stub.cell 1 0 "C"] |} ] →
      ∃ d md,
        process svc settings input_data w = (Return (PDict d), w') ∧
        d !! "metadata" = Some (PDict md) ∧
        md !! "tables" = Some (PInt 1) ∧
        md !! "tables_data" =
          Some (PList [PList [
            PDict {[ "row" := PInt 0; "column" := PInt 0; "content" := PStr "A" ]};
            PDict {[ "row" := PInt 0; "column" := PInt 1; "content" := PStr "B" ]};
            PDict {[ "row" := PInt 1; "column" := PInt 0; "content" := PStr "C" ]} ]])).
Proof.
  split; [|split].
  - intros d w' Hrun Hshape.
    destruct (process_success_inv _ _ _ _ _ _ Hrun Hshape)
      as (result & doc & Han & Hdoc & Hflat).
    exists result. split; [done|].
    rewrite (flatten_strings _ _ _ Hdoc) in Hflat. by injection Hflat as <-.
  - intros result w' doc Han Hdoc.
    destruct (process_success _ _ _ _ _ _ _ Han Hdoc) as [-> ->].
    eexists. split; [reflexivity|]. split; [apply success_record_shape|done].
  - intros result w' doc Han Hdoc Htables.
    destruct (process_success _ _ _ _ _ _ _ Han Hdoc) as [-> ->].
    eexists _, _. split; [reflexivity|]. split; [reflexivity|].
    rewrite Htables. by split.
Qed.

(** C3 at the stub that answers with the table of the example. *)
Lemma metadata_counts_and_tables_witness :
  ∃ d md,
    process (Stub.answering Stub.one_table) Stub.configured Stub.req_url Stub.w0 =
      (Return (PDict d),
       {| svc_state := 2;
          call_log := [AnalyzeUrl "prebuilt-layout" (PStr "https://example.org/a.pdf");
                       PollerResult] |}) ∧
    d !! "metadata" = Some (PDict md) ∧
    md !! "tables" = Some (PInt 1) ∧
    md !! "tables_data" =
      Some (PList [PList [
        PDict {[ "row" := PInt 0; "column" := PInt 0; "content" := PStr "A" ]};
        PDict {[ "row" := PInt 0; "column" := PInt 1; "content" := PStr "B" ]};
        PDict {[ "row" := PInt 1; "column" := PInt 0; "content" := PStr "C" ]} ]]).
Proof.
  apply (proj2 (proj2 (metadata_counts_and_tables (Stub.answering Stub.one_table)
                         Stub.configured Stub.req_url Stub.w0)) Stub.one_table _ []).
  - vm_compute. reflexivity.
  - reflexivity.
  - reflexivity.
Defined.

(** ** Which operation a call invokes *)

Lemma credentials_configured_dec (settings : Settings) :
  credentials_configured settings ∨ ¬ credentials_configured settings.
Proof.
  unfold credentials_configured. rewrite <- !truthy_non_empty.
  destruct (truthy _), (truthy _); intuition discriminate.
Qed.

Lemma process_log_bytes {S : Type} (svc : Service S) (settings : Settings)
    (input_data : gmap string pyval) (w : world S) (v : pyval) :
  credentials_configured settings →
  input_data !! "file_bytes" = Some v →
  call_log (process svc settings input_data w).2 =
    call_log w ++ [AnalyzeBytes (PREBUILT_MODEL settings) v] ∨
  call_log (process svc settings input_data w).2 =
    call_log w ++ [AnalyzeBytes (PREBUILT_MODEL settings) v; PollerResult].
Proof.
  intros Hc Hb. rewrite process_world, process_body_world, analyze_configured, Hb by done.
  destruct (run_job _ _ w) as [r w'] eqn:Hrun. eauto using run_job_log.
Qed.

Lemma run_job_Raise {S : Type} (c : call) (op : S → outcome (Poller S) * S)
    (w : world S) e w' :
  run_job c op w = (Raise e, w') →
  (∃ s1, op (svc_state w) = (Raise e, s1)) ∨
  (∃ p s1 s2, op (svc_state w) = (Return p, s1) ∧ poller_result p s1 = (Raise e, s2)).
Proof.
  unfold run_job. destruct (op (svc_state w)) as [[p|e'] s1].
  - destruct (poller_result p s1) as [r s2] eqn:Hr. intros [= -> <-]. right. eauto.
  - intros [= -> <-]. left. eauto.
Qed.

Lemma bytes_run_not_url (m : string) (v : pyval) (rest : list call) :
  rest = [] ∨ rest = [PollerResult] →
  ¬ invoked_url (AnalyzeBytes m v :: rest).
Proof. intros [-> | ->] (m' & u & Hin); no_such_call Hin. Qed.

Lemma no_call_not_url : ¬ invoked_url [].
Proof. intros (m' & u & Hin). no_such_call Hin. Qed.

Lemma no_call_not_bytes : ¬ invoked_bytes [].
Proof. intros (m' & u & Hin). no_such_call Hin. Qed.

(** A failure record is what the [except] clause made of an exception
    of the body. *)
Lemma process_failure_inv {S : Type} (svc : Service S) (settings : Settings)
    (input_data : gmap string pyval) (w : world S) d w' :
  process svc settings input_data w = (Return (PDict d), w') →
  failure_shape d →
  ∃ e message,
    process_body svc settings input_data w = (Raise e, w') ∧
    isinstance_Exception e = true ∧
    str e = Return message ∧
    d = {[ "error" := PStr message; "result" := PNone ]}.
Proof.
  intros Hrun Hshape.
  destruct (process_body svc settings input_data w) as [[d'|e] w1] eqn:Hbody.
  - rewrite (process_of_body_Return _ _ _ _ _ _ Hbody) in Hrun.
    injection Hrun as -> ->.
    apply process_body_Return in Hbody as (result & Han & Hflat).
    destruct (flatten_Return _ _ _ Hflat) as [doc Hdoc].
    rewrite (flatten_strings _ _ _ Hdoc) in Hflat. injection Hflat as <-.
    destruct Hshape as [[message Hm] _]. discriminate Hm.
  - rewrite (process_of_body_Raise _ _ _ _ _ _ Hbody) in Hrun.
    destruct (isinstance_Exception e) eqn:He; [|discriminate].
    destruct (str e) as [message|e'] eqn:Hstr; [|discriminate].
    injection Hrun as <- <-. by exists e, message.
Qed.

(** C4, as amended.  For every request in which both ['file_bytes'] and
    ['file_url'] are present the analyze-from-URL operation is never
    invoked; with the credentials configured, the analyze-from-bytes
    operation is invoked with the ['file_bytes'] payload (then, if it
    handed out a poller, the poller is waited for); with the credentials
    missing or empty, no operation is invoked. *)
Theorem bytes_take_precedence {S : Type} (svc : Service S) (settings : Settings)
    (input_data : gmap string pyval) (w : world S) (v u : pyval) :
  input_data !! "file_bytes" = Some v →
  input_data !! "file_url" = Some u →
  ∃ new,
    call_log (process svc settings input_data w).2 = call_log w ++ new ∧
    ¬ invoked_url new ∧
    (credentials_configured settings →
       new = [AnalyzeBytes (PREBUILT_MODEL settings) v] ∨
       new = [AnalyzeBytes (PREBUILT_MODEL settings) v; PollerResult]) ∧
    (¬ credentials_configured settings → new = []).
Proof.
  intros Hb Hu. destruct (credentials_configured_dec settings) as [Hc|Hc].
  - destruct (process_log_bytes svc settings input_data w v Hc Hb) as [Hlog|Hlog];
      eexists; (split; [exact Hlog|]);
      (split; [apply bytes_run_not_url; auto|]); (split; [auto|done]).
  - exists []. rewrite process_not_configured by done. cbn.
    rewrite app_nil_r. split; [done|]. split; [apply no_call_not_url|done].
Qed.

(** C4 at a request with both keys, on the configured stub. *)
Lemma bytes_take_precedence_witness :
  ∃ new,
    call_log (process (Stub.answering Stub.two_pages) Stub.configured
                Stub.req_both Stub.w0).2 = call_log Stub.w0 ++ new ∧
    ¬ invoked_url new ∧
    (credentials_configured Stub.configured →
       new = [AnalyzeBytes "prebuilt-layout" Stub.pdf] ∨
       new = [AnalyzeBytes "prebuilt-layout" Stub.pdf; PollerResult]) ∧
    (¬ credentials_configured Stub.configured → new = []).
Proof.
  apply (bytes_take_precedence (Stub.answering Stub.two_pages) Stub.configured
           Stub.req_both Stub.w0 Stub.pdf (PStr "https://example.org/a.pdf")).
  - vm_compute. reflexivity.
  - vm_compute. reflexivity.
Defined.

(** C4 as stated fails: with both keys present and no credentials
    configured, the analyze-from-bytes operation is not invoked. *)
Lemma bytes_not_invoked_without_credentials :
  Stub.req_both !! "file_bytes" = Some Stub.pdf ∧
  Stub.req_both !! "file_url" = Some (PStr "https://example.org/a.pdf") ∧
  call_log (process (Stub.answering Stub.two_pages) Stub.no_credentials
              Stub.req_both Stub.w0).2 = [] ∧
  ¬ invoked_bytes (call_log (process (Stub.answering Stub.two_pages)
                               Stub.no_credentials Stub.req_both Stub.w0).2).
Proof.
  assert (H : call_log (process (Stub.answering Stub.two_pages) Stub.no_credentials
                          Stub.req_both Stub.w0).2 = []) by (vm_compute; reflexivity).
  repeat split; try (vm_compute; reflexivity).
  rewrite H. apply no_call_not_bytes.
Qed.

(** ** Requests and configurations that are refused *)

(** C5.  With the credentials configured, for every request that has
    neither ['file_bytes'] nor ['file_url'], [process] returns the
    record with a non-empty ['error'] and ['result'] [None], and the
    world is as before: no operation of the service was invoked. *)
Theorem no_input_is_refused {S : Type} (svc : Service S) (settings : Settings)
    (input_data : gmap string pyval) (w : world S) :
  credentials_configured settings →
  input_data !! "file_bytes" = None →
  input_data !! "file_url" = None →
  ∃ message,
    process svc settings input_data w =
      (Return (PDict {[ "error" := PStr message; "result" := PNone ]}), w) ∧
    message ≠ "" ∧
    call_log (process svc settings input_data w).2 = call_log w.
Proof.
  intros Hc Hb Hu. rewrite process_no_input by done.
  eexists. split; [reflexivity|]. by split.
Qed.

(** C5 at a request that carries only a ['file_path']. *)
Lemma no_input_is_refused_witness :
  ∃ message,
    process (Stub.answering Stub.two_pages) Stub.configured Stub.req_neither Stub.w0 =
      (Return (PDict {[ "error" := PStr message; "result" := PNone ]}), Stub.w0) ∧
    message ≠ "" ∧
    call_log (process (Stub.answering Stub.two_pages) Stub.configured
                Stub.req_neither Stub.w0).2 = call_log Stub.w0.
Proof.
  apply (no_input_is_refused (Stub.answering Stub.two_pages) Stub.configured
           Stub.req_neither Stub.w0).
  - split; eexists; (split; [reflexivity|discriminate]).
  - vm_compute. reflexivity.
  - vm_compute. reflexivity.
Defined.

(** C6.  Whenever the configured endpoint or key is missing or empty,
    [process] returns the record with a non-empty ['error'] and
    ['result'] [None] and leaves the world as it was (no operation of the
    service is invoked); a second call under the same configuration,
    made after the first, returns the same error and again changes
    nothing. *)
Theorem missing_credentials_are_refused {S : Type} (svc : Service S)
    (settings : Settings) (input_data input_data' : gmap string pyval) (w : world S) :
  missing_or_empty (AZURE_FORMRECOGNIZER_ENDPOINT settings) ∨
  missing_or_empty (AZURE_FORMRECOGNIZER_KEY settings) →
  ∃ message,
    message ≠ "" ∧
    process svc settings input_data w =
      (Return (PDict {[ "error" := PStr message; "result" := PNone ]}), w) ∧
    process svc settings input_data' (process svc settings input_data w).2 =
      (Return (PDict {[ "error" := PStr message; "result" := PNone ]}), w).
Proof.
  intros Hc%not_configured. rewrite !process_not_configured by done.
  eexists. split; [|by split]. done.
Qed.

(** C6 at a configuration whose key is the empty string. *)
Lemma missing_credentials_are_refused_witness :
  ∃ message,
    message ≠ "" ∧
    process (Stub.answering Stub.two_pages) Stub.empty_key Stub.req_bytes Stub.w0 =
      (Return (PDict {[ "error" := PStr message; "result" := PNone ]}), Stub.w0) ∧
    process (Stub.answering Stub.two_pages) Stub.empty_key Stub.req_url
      (process (Stub.answering Stub.two_pages) Stub.empty_key Stub.req_bytes Stub.w0).2 =
      (Return (PDict {[ "error" := PStr message; "result" := PNone ]}), Stub.w0).
Proof.
  apply (missing_credentials_are_refused (Stub.answering Stub.two_pages)
           Stub.empty_key Stub.req_bytes Stub.req_url Stub.w0).
  right. right. reflexivity.
Defined.

(** C7, as amended.  The credentials check runs before the input is
    resolved: for every request that has neither ['file_bytes'] nor
    ['file_url'], the "no input provided" failure is the one returned
    when the credentials are configured, and the credentials failure is
    the one returned when they are missing or empty; either way nothing
    else of the pipeline runs. *)
Theorem credentials_are_checked_first {S : Type} (svc : Service S)
    (settings : Settings) (input_data : gmap string pyval) (w : world S) :
  input_data !! "file_bytes" = None →
  input_data !! "file_url" = None →
  (credentials_configured settings →
     process svc settings input_data w = (Return (error_record (exc_message no_input_error)), w)) ∧
  (¬ credentials_configured settings →
     process svc settings input_data w =
       (Return (error_record (exc_message credentials_error)), w)) ∧
  error_record (exc_message no_input_error) ≠ error_record (exc_message credentials_error).
Proof.
  intros Hb Hu. split; [|split].
  - intros Hc. by apply process_no_input.
  - intros Hc. by apply process_not_configured.
  - intros Heq. discriminate Heq.
Qed.

(** C7 at a request with neither key, with and without credentials. *)
Lemma credentials_are_checked_first_witness :
  (credentials_configured Stub.no_credentials →
     process (Stub.failing Stub.quota) Stub.no_credentials Stub.req_neither Stub.w0 =
       (Return (error_record (exc_message no_input_error)), Stub.w0)) ∧
  (¬ credentials_configured Stub.no_credentials →
     process (Stub.failing Stub.quota) Stub.no_credentials Stub.req_neither Stub.w0 =
       (Return (error_record (exc_message credentials_error)), Stub.w0)) ∧
  error_record (exc_message no_input_error) ≠ error_record (exc_message credentials_error).
Proof.
  apply (credentials_are_checked_first (Stub.failing Stub.quota) Stub.no_credentials
           Stub.req_neither Stub.w0).
  - vm_compute. reflexivity.
  - vm_compute. reflexivity.
Defined.

(** C7 as stated fails: with neither key and no credentials, the
    failure returned is the credentials one, not the "no input
    provided" one. *)
Lemma no_input_error_is_masked :
  Stub.req_neither !! "file_bytes" = None ∧
  Stub.req_neither !! "file_url" = None ∧
  process (Stub.failing Stub.quota) Stub.no_credentials Stub.req_neither Stub.w0 =
    (Return (PDict {[ "error" := PStr "Azure Form Recognizer credentials not configured";
                      "result" := PNone ]}), Stub.w0) ∧
  (process (Stub.failing Stub.quota) Stub.no_credentials Stub.req_neither Stub.w0).1 ≠
    Return (PDict {[ "error" := PStr "Either 'file_bytes' or 'file_url' must be provided";
                     "result" := PNone ]}).
Proof.
  repeat split; try (vm_compute; reflexivity).
  intros Heq. vm_compute in Heq. discriminate Heq.
Qed.

(** ** What the failure record reports *)

Lemma run_job_begin_Raise {S : Type} (c : call) (op : S → outcome (Poller S) * S)
    (w : world S) e s1 :
  op (svc_state w) = (Raise e, s1) →
  run_job c op w = (Raise e, {| svc_state := s1; call_log := call_log w ++ [c] |}).
Proof. unfold run_job. by intros ->. Qed.

Lemma run_job_poller_Raise {S : Type} (c : call) (op : S → outcome (Poller S) * S)
    (w : world S) p s1 e s2 :
  op (svc_state w) = (Return p, s1) →
  poller_result p s1 = (Raise e, s2) →
  run_job c op w =
    (Raise e, {| svc_state := s2; call_log := call_log w ++ [c; PollerResult] |}).
Proof. unfold run_job. by intros -> ->. Qed.

Lemma process_of_analyze_Raise {S : Type} (svc : Service S) (settings : Settings)
    (input_data : gmap string pyval) (w : world S) e w' message :
  analyze svc settings input_data w = (Raise e, w') →
  isinstance_Exception e = true →
  str e = Return message →
  process svc settings input_data w = (Return (error_record message), w').
Proof.
  intros Han He Hstr. apply (process_of_body_Raise_reportable _ _ _ _ e); [|done..].
  unfold process_body, bind. by rewrite Han.
Qed.

(** C8, as amended.  For every exception raised during the call that is
    an instance of [Exception] and that [str] renders - raised by the
    credentials check, by the input check, by the operation of the
    service that the request selects, by the wait on its poller, or by
    the flattening - [process] returns the failure record whose
    ['error'] is [str(e)], the message of that exception, and whose
    ['result'] is [None].  The exceptions of the two checks and of the
    flattening are always such exceptions. *)
Theorem failure_record_reports_message {S : Type} (svc : Service S)
    (settings : Settings) (input_data : gmap string pyval) (w : world S) :
  let client := configured_client settings in
  let model := PREBUILT_MODEL settings in
  let reported (message : string) :=
    Return (PDict {[ "error" := PStr message; "result" := PNone ]}) in
  (∀ e w' message,
      process_body svc settings input_data w = (Raise e, w') →
      isinstance_Exception e = true →
      str e = Return message →
      process svc settings input_data w = (reported message, w')) ∧
  (¬ credentials_configured settings →
      ∃ message,
        str credentials_error = Return message ∧
        (process svc settings input_data w).1 = reported message) ∧
  (credentials_configured settings →
      input_data !! "file_bytes" = None → input_data !! "file_url" = None →
      ∃ message,
        str no_input_error = Return message ∧
        (process svc settings input_data w).1 = reported message) ∧
  (∀ v e s1 message,
      credentials_configured settings →
      input_data !! "file_bytes" = Some v →
      begin_analyze_document svc client model v (svc_state w) = (Raise e, s1) →
      isinstance_Exception e = true →
      str e = Return message →
      (process svc settings input_data w).1 = reported message) ∧
  (∀ u e s1 message,
      credentials_configured settings →
      input_data !! "file_bytes" = None → input_data !! "file_url" = Some u →
      begin_analyze_document_from_url svc client model u (svc_state w) = (Raise e, s1) →
      isinstance_Exception e = true →
      str e = Return message →
      (process svc settings input_data w).1 = reported message) ∧
  (∀ v p s1 e s2 message,
      credentials_configured settings →
      input_data !! "file_bytes" = Some v →
      begin_analyze_document svc client model v (svc_state w) = (Return p, s1) →
      poller_result p s1 = (Raise e, s2) →
      isinstance_Exception e = true →
      str e = Return message →
      (process svc settings input_data w).1 = reported message) ∧
  (∀ u p s1 e s2 message,
      credentials_configured settings →
      input_data !! "file_bytes" = None → input_data !! "file_url" = Some u →
      begin_analyze_document_from_url svc client model u (svc_state w) = (Return p, s1) →
      poller_result p s1 = (Raise e, s2) →
      isinstance_Exception e = true →
      str e = Return message →
      (process svc settings input_data w).1 = reported message) ∧
  (∀ result w' e,
      analyze svc settings input_data w = (Return result, w') →
      flatten settings result = Raise e →
      ∃ message,
        str e = Return message ∧
        process svc settings input_data w = (reported message, w')).
Proof.
  cbn zeta. repeat apply conj.
  - intros e w' message Hbody He Hstr.
    by rewrite (process_of_body_Raise_reportable _ _ _ _ _ _ _ Hbody He Hstr).
  - intros Hc. eexists. split; [reflexivity|]. by rewrite process_not_configured.
  - intros Hc Hb Hu. eexists. split; [reflexivity|]. by rewrite process_no_input.
  - intros v e s1 message Hc Hb Hop He Hstr.
    erewrite process_of_analyze_Raise; [done| |done..].
    rewrite analyze_configured, Hb by done. by apply run_job_begin_Raise.
  - intros u e s1 message Hc Hb Hu Hop He Hstr.
    erewrite process_of_analyze_Raise; [done| |done..].
    rewrite analyze_configured, Hb, Hu by done. by apply run_job_begin_Raise.
  - intros v p s1 e s2 message Hc Hb Hop Hres He Hstr.
    erewrite process_of_analyze_Raise; [done| |done..].
    rewrite analyze_configured, Hb by done. by eapply run_job_poller_Raise.
  - intros u p s1 e s2 message Hc Hb Hu Hop Hres He Hstr.
    erewrite process_of_analyze_Raise; [done| |done..].
    rewrite analyze_configured, Hb, Hu by done. by eapply run_job_poller_Raise.
  - intros result w' e Han Hflat.
    destruct (flatten_Raise_reportable _ _ _ Hflat) as (He & message & Hstr).
    exists message. split; [done|].
    apply (process_of_body_Raise_reportable _ _ _ _ e); [|done..].
    unfold process_body, bind, lift. by rewrite Han, Hflat.
Qed.

(** C8 at a result whose only line has no content: the [TypeError] of
    the flattening is reported by its message. *)
Lemma failure_record_reports_message_witness :
  process (Stub.answering Stub.broken_page) Stub.configured Stub.req_bytes Stub.w0 =
    (Return (PDict {[
       "error" := PStr "unsupported operand type(s) for +: 'NoneType' and 'str'";
       "result" := PNone ]}),
     {| svc_state := 2;
        call_log := [AnalyzeBytes "prebuilt-layout" Stub.pdf; PollerResult] |}).
Proof.
  apply (proj1 (failure_record_reports_message (Stub.answering Stub.broken_page)
                  Stub.configured Stub.req_bytes Stub.w0)
           (mk_exception TypeError
              "unsupported operand type(s) for +: 'NoneType' and 'str'")).
  - vm_compute. reflexivity.
  - reflexivity.
  - reflexivity.
Defined.

(** The other way out of the handler: an instance of [Exception] whose
    [__str__] fails makes [str(e)] raise inside the handler, and that
    exception leaves [process]. *)
Lemma failing_str_leaves_process :
  isinstance_Exception Stub.unprintable = true ∧
  process (Stub.failing Stub.unprintable) Stub.configured Stub.req_bytes Stub.w0 =
    (Raise (mk_exception TypeError "__str__ returned non-string (type NoneType)"),
     {| svc_state := 1; call_log := [AnalyzeBytes "prebuilt-layout" Stub.pdf] |}).
Proof. split; [reflexivity|]. vm_compute. reflexivity. Qed.

(** C8 as stated fails: when the wait on the poller raises [SystemExit],
    no failure record is returned; the exception leaves [process]. *)
Lemma SystemExit_is_not_reported :
  process_body (Stub.failing_later Stub.exit_1) Stub.configured Stub.req_url Stub.w0 =
    (Raise Stub.exit_1,
     {| svc_state := 2;
        call_log := [AnalyzeUrl "prebuilt-layout" (PStr "https://example.org/a.pdf");
                     PollerResult] |}) ∧
  ¬ ∃ d w',
      process (Stub.failing_later Stub.exit_1) Stub.configured Stub.req_url Stub.w0 =
        (Return d, w').
Proof.
  split; [vm_compute; reflexivity|].
  intros (d & w' & Hd). vm_compute in Hd. discriminate Hd.
Qed.

(** ** The probes *)

(** C9.  [get_input_schema], [get_output_schema] and [get_metadata]
    return, never raise, leave the world as it was, and return the same
    value in every world, so that any two calls return equal values; the
    ['required'] list of the input schema is [['file_bytes']], and its
    ['properties'] advertise ['file_url'] next to ['file_bytes']. *)
Theorem probes_are_pure {S : Type} (w1 w2 : world S) :
  (@get_input_schema S w1 = (Return input_schema, w1) ∧
   (@get_input_schema S w1).1 = (@get_input_schema S w2).1 ∧
   (@get_input_schema S (@get_input_schema S w1).2).1 = (@get_input_schema S w1).1) ∧
  (@get_output_schema S w1 = (Return output_schema, w1) ∧
   (@get_output_schema S w1).1 = (@get_output_schema S w2).1 ∧
   (@get_output_schema S (@get_output_schema S w1).2).1 = (@get_output_schema S w1).1) ∧
  (@get_metadata S w1 = (Return metadata_record, w1) ∧
   (@get_metadata S w1).1 = (@get_metadata S w2).1 ∧
   (@get_metadata S (@get_metadata S w1).2).1 = (@get_metadata S w1).1) ∧
  ∃ schema properties,
    input_schema = PDict schema ∧
    schema !! "required" = Some (PList [PStr "file_bytes"]) ∧
    schema !! "properties" = Some (PDict properties) ∧
    is_Some (properties !! "file_bytes") ∧
    is_Some (properties !! "file_url").
Proof.
  repeat split; try reflexivity.
  eexists _, _. split; [reflexivity|]. repeat split; try reflexivity; by eexists.
Qed.

(** ** Presence of the key, not truth of the value *)

(** C10, as amended.  With the credentials configured, the dispatch is
    decided by the presence of the key: for every request whose
    dictionary has the key ['file_bytes'], whatever its value ([None],
    empty, or any other), the analyze-from-bytes operation is invoked
    with that value and the analyze-from-URL operation is not, whether or
    not ['file_url'] is present; a failure record, if one is returned,
    reports an exception raised by the analyze-from-bytes operation, by
    the wait on its poller, or by the flattening of its result, never
    the "no input" error of the input check. *)
Theorem key_presence_decides_dispatch {S : Type} (svc : Service S)
    (settings : Settings) (input_data : gmap string pyval) (w : world S) (v : pyval) :
  credentials_configured settings →
  input_data !! "file_bytes" = Some v →
  let client := configured_client settings in
  let model := PREBUILT_MODEL settings in
  (∃ rest,
      call_log (process svc settings input_data w).2 =
        call_log w ++ AnalyzeBytes model v :: rest ∧
      (rest = [] ∨ rest = [PollerResult]) ∧
      ¬ invoked_url (AnalyzeBytes model v :: rest)) ∧
  (∀ d w',
      process svc settings input_data w = (Return (PDict d), w') →
      failure_shape d →
      ∃ e message,
        str e = Return message ∧
        d = {[ "error" := PStr message; "result" := PNone ]} ∧
        ((∃ s1, begin_analyze_document svc client model v (svc_state w) = (Raise e, s1)) ∨
         (∃ p s1 s2,
             begin_analyze_document svc client model v (svc_state w) = (Return p, s1) ∧
             poller_result p s1 = (Raise e, s2)) ∨
         (∃ result,
             analyze svc settings input_data w = (Return result, w') ∧
             flatten settings result = Raise e))).
Proof.
  intros Hc Hb. cbn zeta. split.
  - destruct (process_log_bytes svc settings input_data w v Hc Hb) as [Hlog|Hlog];
      eexists; (split; [exact Hlog|]); (split; [auto|]);
      apply bytes_run_not_url; auto.
  - intros d w' Hrun Hshape.
    destruct (process_failure_inv _ _ _ _ _ _ Hrun Hshape)
      as (e & message & Hbody & _ & Hstr & ->).
    exists e, message. split; [done|]. split; [done|].
    apply process_body_Raise in Hbody as [Han | (result & Han & Hflat)].
    + rewrite analyze_configured, Hb in Han by done.
      apply run_job_Raise in Han as [?|?]; auto.
    + right. right. eauto.
Qed.

(** C10 at a request whose ['file_bytes'] is [None] and whose
    ['file_url'] is a valid address, on a service that rejects the
    document. *)
Lemma key_presence_decides_dispatch_witness :
  (∃ rest,
      call_log (process (Stub.failing Stub.quota) Stub.configured
                  Stub.req_none_bytes Stub.w0).2 =
        call_log Stub.w0 ++ AnalyzeBytes "prebuilt-layout" PNone :: rest ∧
      (rest = [] ∨ rest = [PollerResult]) ∧
      ¬ invoked_url (AnalyzeBytes "prebuilt-layout" PNone :: rest)) ∧
  (∀ d w',
      process (Stub.failing Stub.quota) Stub.configured Stub.req_none_bytes Stub.w0 =
        (Return (PDict d), w') →
      failure_shape d →
      ∃ e message,
        str e = Return message ∧
        d = {[ "error" := PStr message; "result" := PNone ]} ∧
        ((∃ s1, begin_analyze_document (Stub.failing Stub.quota)
                  (configured_client Stub.configured) "prebuilt-layout" PNone
                  (svc_state Stub.w0) = (Raise e, s1)) ∨
         (∃ p s1 s2,
             begin_analyze_document (Stub.failing Stub.quota)
               (configured_client Stub.configured) "prebuilt-layout" PNone
               (svc_state Stub.w0) = (Return p, s1) ∧
             poller_result p s1 = (Raise e, s2)) ∨
         (∃ result,
             analyze (Stub.failing Stub.quota) Stub.configured Stub.req_none_bytes
               Stub.w0 = (Return result, w') ∧
             flatten Stub.configured result = Raise e))).
Proof.
  apply (key_presence_decides_dispatch (Stub.failing Stub.quota) Stub.configured
           Stub.req_none_bytes Stub.w0 PNone).
  - split; eexists; (split; [reflexivity|discriminate]).
  - vm_compute. reflexivity.
Defined.

(** C10 as stated fails: with the key ['file_bytes'] present (its value
    [None]) and no credentials configured, the bytes path is not taken,
    and the failure is that of the credentials check. *)
Lemma bytes_key_without_credentials :
  Stub.req_none_bytes !! "file_bytes" = Some PNone ∧
  process (Stub.failing Stub.quota) Stub.no_credentials Stub.req_none_bytes Stub.w0 =
    (Return (PDict {[ "error" := PStr "Azure Form Recognizer credentials not configured";
                      "result" := PNone ]}), Stub.w0) ∧
  ¬ invoked_bytes (call_log (process (Stub.failing Stub.quota) Stub.no_credentials
                               Stub.req_none_bytes Stub.w0).2).
Proof.
  assert (H : process (Stub.failing Stub.quota) Stub.no_credentials
                Stub.req_none_bytes Stub.w0 =
    (Return (PDict {[ "error" := PStr "Azure Form Recognizer credentials not configured";
                      "result" := PNone ]}), Stub.w0)) by (vm_compute; reflexivity).
  split; [vm_compute; reflexivity|]. split; [exact H|].
  rewrite H. apply no_call_not_bytes.
Qed.

(** * Further properties of the adapter *)

(** ** Which lines the flattening accepts *)

Lemma find_app_first {A : Type} (f : A → bool) (l1 l2 : list A) :
  find f (l1 ++ l2) = match find f l1 with Some x => Some x | None => find f l2 end.
Proof. induction l1 as [|x l1 IH]; [done|]. cbn. by destruct (f x). Qed.

Lemma add_newline_non_str (v : pyval) :
  is_str v = false → ∃ e, add_newline v = Raise e ∧ exc_type e = TypeError.
Proof. destruct v; cbn; intros H; try discriminate; eauto. Qed.

Lemma lines_loop_all_str (acc : string) (ls : list DocumentLine) :
  first_non_str (map line_content ls) = None → ∃ t, lines_loop acc ls = Return t.
Proof.
  unfold first_non_str. revert acc. induction ls as [|[v] ls IH]; intros acc H.
  - by exists acc.
  - cbn in H. destruct v; cbn in H; try discriminate. cbn. eauto.
Qed.

Lemma lines_loop_first_non_str (acc : string) (ls : list DocumentLine) (v : pyval) :
  first_non_str (map line_content ls) = Some v →
  ∃ e, add_newline v = Raise e ∧ lines_loop acc ls = Raise e.
Proof.
  unfold first_non_str. revert acc. induction ls as [|[v'] ls IH]; intros acc H.
  - discriminate.
  - cbn in H. destruct (is_str v') eqn:Hv; cbn in H.
    + destruct v'; try discriminate. cbn. eauto.
    + injection H as ->. destruct (add_newline_non_str _ Hv) as (e & He & _).
      exists e. split; [done|]. cbn. by rewrite He.
Qed.

Lemma pages_loop_all_str (n : nat) (acc : string) (ps : list DocumentPage) :
  first_non_str (line_contents ps) = None → ∃ t, pages_loop n acc ps = Return t.
Proof.
  unfold first_non_str, line_contents.
  revert n acc. induction ps as [|p ps IH]; intros n acc H.
  - by exists acc.
  - cbn in H. rewrite find_app_first in H.
    destruct (find _ (map line_content (lines p))) eqn:Hp; [discriminate|].
    cbn. destruct (lines_loop_all_str (acc +:+ ("page number " +:+ pretty n +:+ nl))
                     (lines p) Hp) as [t ->]. eauto.
Qed.

Lemma pages_loop_first_non_str (n : nat) (acc : string) (ps : list DocumentPage)
    (v : pyval) :
  first_non_str (line_contents ps) = Some v →
  ∃ e, add_newline v = Raise e ∧ pages_loop n acc ps = Raise e.
Proof.
  unfold first_non_str, line_contents.
  revert n acc. induction ps as [|p ps IH]; intros n acc H.
  - discriminate.
  - cbn in H. rewrite find_app_first in H. cbn.
    destruct (find _ (map line_content (lines p))) as [v'|] eqn:Hp.
    + injection H as ->.
      destruct (lines_loop_first_non_str
                  (acc +:+ ("page number " +:+ pretty n +:+ nl)) (lines p) v Hp)
        as (e & He & ->). eauto.
    + destruct (lines_loop_all_str (acc +:+ ("page number " +:+ pretty n +:+ nl))
                  (lines p) Hp) as [t ->]. eauto.
Qed.

(** X5.  On pages that are lists of lines, the text loop of lines
    54-58 returns exactly when the content of every line is a [str];
    a first line, in document order, whose content is not a [str] makes
    it raise the [TypeError] of [+] for that content, and the same
    exception is what the whole flattening raises, whatever tables the
    result has: the text loop runs before the tables are looked at. *)
Theorem flatten_fails_at_first_non_str (settings : Settings) (ps : list DocumentPage) :
  (first_non_str (line_contents ps) = None ↔ ∃ text, pages_loop 1 "" ps = Return text) ∧
  (∀ v, first_non_str (line_contents ps) = Some v →
     is_str v = false ∧
     ∃ e, add_newline v = Raise e ∧ exc_type e = TypeError ∧
          pages_loop 1 "" ps = Raise e ∧
          ∀ ts, flatten settings {| pages := ps; tables := ts |} = Raise e).
Proof.
  assert (Hbad : ∀ v, first_non_str (line_contents ps) = Some v →
     is_str v = false ∧
     ∃ e, add_newline v = Raise e ∧ exc_type e = TypeError ∧
          pages_loop 1 "" ps = Raise e ∧
          ∀ ts, flatten settings {| pages := ps; tables := ts |} = Raise e).
  { intros v H.
    assert (Hv : is_str v = false).
    { apply find_some in H as [_ Hv]. by apply negb_true_iff in Hv. }
    split; [done|].
    destruct (pages_loop_first_non_str 1 "" _ _ H) as (e & He & Hl).
    exists e. split; [done|]. split; [by eapply add_newline_Raise|].
    split; [done|]. intros ts. unfold flatten. cbn [pages]. by rewrite Hl. }
  split; [|exact Hbad]. split.
  - apply pages_loop_all_str.
  - intros [text Htext].
    destruct (first_non_str (line_contents ps)) as [v|] eqn:Hfirst; [|done].
    destruct (Hbad v eq_refl) as (_ & e & _ & _ & Hl & _). congruence.
Qed.

(** X5 at a result whose only line has the content [None]. *)
Lemma flatten_fails_at_first_non_str_witness :
  is_str PNone = false ∧
  ∃ e, add_newline PNone = Raise e ∧ exc_type e = TypeError ∧
       pages_loop 1 "" (pages Stub.broken_page) = Raise e ∧
       ∀ ts, flatten Stub.configured
               {| pages := pages Stub.broken_page; tables := ts |} = Raise e.
Proof.
  apply (proj2 (flatten_fails_at_first_non_str Stub.configured
                  (pages Stub.broken_page)) PNone).
  reflexivity.
Defined.

(** ** The text as a function of the pages *)

Lemma concat_all_app (l1 l2 : list string) :
  concat_all (l1 ++ l2) = concat_all l1 +:+ concat_all l2.
Proof.
  induction l1 as [|s l1 IH]; [done|].
  cbn [app]. by rewrite !concat_all_cons, IH, string_app_assoc.
Qed.

Lemma lines_loop_acc (acc : string) (ls : list DocumentLine) :
  lines_loop acc ls =
  match lines_loop "" ls with
  | Return t => Return (acc +:+ t)
  | Raise e => Raise e
  end.
Proof.
  revert acc. induction ls as [|[v] ls IH]; intros acc.
  - cbn. by rewrite string_app_nil_r.
  - cbn. destruct (add_newline v) as [s|e]; [|done].
    rewrite (IH (acc +:+ s)), (IH ("" +:+ s)).
    destruct (lines_loop "" ls) as [t|e]; [|done].
    by rewrite string_app_assoc.
Qed.

Lemma pages_loop_acc (n : nat) (acc : string) (ps : list DocumentPage) :
  pages_loop n acc ps =
  match pages_loop n "" ps with
  | Return t => Return (acc +:+ t)
  | Raise e => Raise e
  end.
Proof.
  revert n acc. induction ps as [|p ps IH]; intros n acc.
  - cbn. by rewrite string_app_nil_r.
  - cbn. rewrite (lines_loop_acc (acc +:+ _)), (lines_loop_acc ("" +:+ _)).
    destruct (lines_loop "" (lines p)) as [t|e]; [|done].
    rewrite (IH _ ((acc +:+ _) +:+ t)), (IH _ (("" +:+ _) +:+ t)).
    destruct (pages_loop (S n) "" ps) as [t'|e]; [|done].
    by rewrite !string_app_assoc.
Qed.

Lemma pages_loop_app (n : nat) (acc : string) (ps1 ps2 : list DocumentPage) :
  pages_loop n acc (ps1 ++ ps2) =
  match pages_loop n acc ps1 with
  | Return t => pages_loop (n + length ps1) t ps2
  | Raise e => Raise e
  end.
Proof.
  revert n acc. induction ps1 as [|p ps1 IH]; intros n acc.
  - cbn. by rewrite Nat.add_0_r.
  - cbn. destruct (lines_loop _ (lines p)) as [t|e]; [|done].
    rewrite IH. by rewrite Nat.add_succ_r.
Qed.

(** X13.  The text of a document whose pages are [ps1] followed by
    [ps2] is the text of [ps1] followed by the text of [ps2] with its
    pages numbered on from where [ps1] ends; if [ps1] has a line that is
    not a [str], the failure of [ps1] is the failure of the whole, and
    [ps2] is not looked at. *)
Theorem text_of_appended_pages (ps1 ps2 : list DocumentPage) :
  pages_loop 1 "" (ps1 ++ ps2) =
  match pages_loop 1 "" ps1 with
  | Return t1 =>
      match pages_loop (1 + length ps1) "" ps2 with
      | Return t2 => Return (t1 +:+ t2)
      | Raise e => Raise e
      end
  | Raise e => Raise e
  end.
Proof.
  rewrite pages_loop_app. destruct (pages_loop 1 "" ps1) as [t1|e]; [|done].
  apply pages_loop_acc.
Qed.

Lemma spec_text_nil_iff (doc : list (list string)) : spec_text doc = "" ↔ doc = [].
Proof.
  split; [|by intros ->]. destruct doc as [|ls doc]; [done|].
  unfold spec_text. rewrite imap_cons, concat_all_cons. unfold page_block.
  intros H. discriminate H.
Qed.

(** X6.  The returned text is empty exactly when the result of the
    service has no page: with at least one page the text begins with a
    page marker, even when no page has a line. *)
Theorem text_empty_iff_no_page (settings : Settings) (result : AnalyzeResult)
    (d : gmap string pyval) :
  flatten settings result = Return (PDict d) →
  (d !! "result" = Some (PStr "") ↔ pages result = []) ∧
  (pages result ≠ [] →
     ∃ rest, d !! "result" = Some (PStr ("page number 1" +:+ nl +:+ rest))).
Proof.
  intros Hflat. destruct (flatten_Return _ _ _ Hflat) as [doc Hdoc].
  rewrite (flatten_strings _ _ _ Hdoc) in Hflat. injection Hflat as <-.
  rewrite Hdoc. split.
  - split.
    + intros [= H%spec_text_nil_iff]. by subst.
    + intros H. destruct doc; [done|discriminate].
  - intros Hne. destruct doc as [|ls doc]; [done|].
    unfold spec_text. rewrite imap_cons, concat_all_cons. unfold page_block.
    eexists. rewrite !string_app_assoc. reflexivity.
Qed.

(** X6 at a result of one page without lines. *)
Lemma text_empty_iff_no_page_witness :
  ∃ d, flatten Stub.configured {| pages := [page_of []]; tables := [] |} = Return (PDict d) ∧
       (d !! "result" = Some (PStr "") ↔ [page_of []] = []) ∧
       ([page_of []] ≠ [] →
          ∃ rest, d !! "result" = Some (PStr ("page number 1" +:+ nl +:+ rest))).
Proof.
  eexists. split; [reflexivity|].
  apply (text_empty_iff_no_page Stub.configured
           {| pages := [page_of []]; tables := [] |}).
  reflexivity.
Defined.

(** ** What the returned record keeps of the result, and what it loses *)

Lemma spec_text_app (doc1 doc2 : list (list string)) :
  spec_text (doc1 ++ doc2) =
  spec_text doc1 +:+
  concat_all (imap (λ i page_lines, page_block (length doc1 + i + 1) page_lines) doc2).
Proof. unfold spec_text. by rewrite imap_app, concat_all_app. Qed.

Lemma page_block_marker (n : nat) (ls1 ls2 : list string) :
  page_block n (ls1 ++ page_marker (n + 1) :: ls2) =
  page_block n ls1 +:+ page_block (n + 1) ls2.
Proof.
  unfold page_block, page_marker.
  rewrite map_app, concat_all_app. cbn [map]. rewrite concat_all_cons.
  by rewrite !string_app_assoc.
Qed.

Lemma page_block_newline (n : nat) (ls1 ls2 : list string) (a b : string) :
  page_block n (ls1 ++ (a +:+ nl +:+ b) :: ls2) = page_block n (ls1 ++ a :: b :: ls2).
Proof.
  unfold page_block. rewrite !map_app, !concat_all_app. cbn [map].
  rewrite !concat_all_cons. by rewrite !string_app_assoc.
Qed.

Lemma flatten_of_strings (settings : Settings) (doc : list (list string))
    (ts : list DocumentTable) :
  flatten settings {| pages := map page_of doc; tables := ts |} =
  Return (PDict {[
    "result" := PStr (spec_text doc);
    "metadata" := PDict {[
      "pages" := PInt (Z.of_nat (length doc));
      "tables" := PInt (Z.of_nat (length ts));
      "tables_data" := PList (spec_tables_data ts);
      "model" := PStr (PREBUILT_MODEL settings) ]} ]}).
Proof.
  rewrite (flatten_strings settings {| pages := map page_of doc; tables := ts |} doc eq_refl).
  cbn [pages tables]. by rewrite length_map.
Qed.

(** X7.  Page markers are not told apart from lines: a page break
    after the lines [ls1] and a line that reads "page number N" (N the
    number the next page would get) at the same place give the same
    text, although the two results differ in their number of pages. *)
Theorem page_marker_line_reads_as_page_break (settings : Settings)
    (ts : list DocumentTable) (doc : list (list string)) (ls1 ls2 : list string) :
  let split_result :=
    {| pages := map page_of (doc ++ [ls1; ls2]); tables := ts |} in
  let merged_result :=
    {| pages := map page_of (doc ++ [ls1 ++ page_marker (length doc + 2) :: ls2]);
       tables := ts |} in
  ∃ text md1 md2,
    flatten settings split_result =
      Return (PDict {[ "result" := PStr text; "metadata" := PDict md1 ]}) ∧
    flatten settings merged_result =
      Return (PDict {[ "result" := PStr text; "metadata" := PDict md2 ]}) ∧
    md1 !! "pages" = Some (PInt (Z.of_nat (length doc + 2))) ∧
    md2 !! "pages" = Some (PInt (Z.of_nat (length doc + 1))).
Proof.
  cbn zeta. rewrite !flatten_of_strings, !length_app. cbn [length].
  assert (Htext : spec_text (doc ++ [ls1 ++ page_marker (length doc + 2) :: ls2]) =
                  spec_text (doc ++ [ls1; ls2])).
  { rewrite !spec_text_app. f_equal. cbn [imap]. rewrite !concat_all_cons.
    cbn [concat_all foldr]. rewrite !string_app_nil_r.
    replace (length doc + 2) with (length doc + 0 + 1 + 1) by lia.
    rewrite page_block_marker. cbn [compose]. do 2 f_equal. lia. }
  rewrite Htext. eexists _, _, _. split; [reflexivity|]. split; [reflexivity|].
  by split.
Qed.

(** X8.  Newlines inside a line are not told apart from line breaks: a
    line "a\nb" and the two lines "a", "b" at the same place of the same
    page give the same returned record, text and metadata. *)
Theorem newline_in_line_reads_as_line_break (settings : Settings)
    (ts : list DocumentTable) (doc1 doc2 : list (list string))
    (ls1 ls2 : list string) (a b : string) :
  flatten settings
    {| pages := map page_of (doc1 ++ (ls1 ++ (a +:+ nl +:+ b) :: ls2) :: doc2);
       tables := ts |} =
  flatten settings
    {| pages := map page_of (doc1 ++ (ls1 ++ a :: b :: ls2) :: doc2);
       tables := ts |}.
Proof.
  rewrite !flatten_of_strings, !length_app. cbn [length].
  rewrite !spec_text_app. cbn [imap]. rewrite !concat_all_cons.
  by rewrite page_block_newline.
Qed.

Lemma cell_record_inj (c1 c2 : DocumentTableCell) :
  cell_record c1 = cell_record c2 → c1 = c2.
Proof.
  destruct c1 as [r1 k1 t1], c2 as [r2 k2 t2]. unfold cell_record. cbn.
  intros H.
  pose proof (f_equal (entry "row") H) as Hr.
  pose proof (f_equal (entry "column") H) as Hk.
  pose proof (f_equal (entry "content") H) as Ht.
  change (r1 = r2) in Hr. change (k1 = k2) in Hk. change (t1 = t2) in Ht.
  by subst.
Qed.

Lemma map_injective {A B : Type} (f : A → B) (l1 l2 : list A) :
  (∀ x y, f x = f y → x = y) → map f l1 = map f l2 → l1 = l2.
Proof.
  intros Hf. revert l2. induction l1 as [|x l1 IH]; intros [|y l2] H; try done.
  cbn [map] in H.
  pose proof (f_equal (λ l, match l with z :: _ => z | [] => f x end) H) as Hhead.
  pose proof (f_equal (λ l, match l with _ :: l' => l' | [] => [] end) H) as Htail.
  cbn beta iota in Hhead, Htail. f_equal; [by apply Hf|by apply IH].
Qed.

Lemma spec_tables_data_inj (ts1 ts2 : list DocumentTable) :
  spec_tables_data ts1 = spec_tables_data ts2 → ts1 = ts2.
Proof.
  apply map_injective. intros [cs1] [cs2] H. cbn [cells] in H.
  pose proof (f_equal (λ v, match v with PList l => l | _ => [] end) H) as Hl.
  cbn beta iota in Hl. f_equal.
  apply (map_injective cell_record); [apply cell_record_inj|exact Hl].
Qed.

(** X9.  The returned record keeps the tables and the number of pages:
    two results of the service that are flattened to the same record
    have the same tables, cell by cell and in the same order, and the
    same number of pages. *)
Theorem record_determines_tables (settings : Settings) (r1 r2 : AnalyzeResult)
    (d : pyval) :
  flatten settings r1 = Return d →
  flatten settings r2 = Return d →
  tables r1 = tables r2 ∧ length (pages r1) = length (pages r2).
Proof.
  intros H1 H2.
  destruct (flatten_Return _ _ _ H1) as [doc1 Hdoc1].
  destruct (flatten_Return _ _ _ H2) as [doc2 Hdoc2].
  rewrite (flatten_strings _ _ _ Hdoc1) in H1.
  rewrite (flatten_strings _ _ _ Hdoc2) in H2.
  rewrite <- H2 in H1. apply (f_equal (outcome_entry "metadata")) in H1.
  pose proof (f_equal (entry "tables_data") H1) as Ht.
  pose proof (f_equal (entry "pages") H1) as Hp.
  change (PList (spec_tables_data (tables r1)) =
          PList (spec_tables_data (tables r2))) in Ht.
  change (PInt (Z.of_nat (length (pages r1))) =
          PInt (Z.of_nat (length (pages r2)))) in Hp.
  injection Ht as Ht. injection Hp as Hp.
  split; [by apply spec_tables_data_inj|by apply Nat2Z.inj].
Qed.

(** X9 at the result of the table example, flattened twice. *)
Lemma record_determines_tables_witness :
  ∃ d, flatten Stub.configured Stub.one_table = Return d ∧
       tables Stub.one_table = tables Stub.one_table ∧
       length (pages Stub.one_table) = length (pages Stub.one_table).
Proof.
  eexists. split; [reflexivity|].
  apply (record_determines_tables Stub.configured Stub.one_table Stub.one_table _
           eq_refl eq_refl).
Defined.

(** ** The operations of one call *)

Lemma app_cons_neq {A : Type} (l r : list A) (x : A) : l ++ x :: r ≠ l.
Proof.
  intros H. apply (f_equal length) in H. rewrite length_app in H. cbn in H. lia.
Qed.

Lemma process_log_selected {S : Type} (svc : Service S) (settings : Settings)
    (input_data : gmap string pyval) (w : world S) (c : call) :
  credentials_configured settings →
  selected_call settings input_data = Some c →
  call_log (process svc settings input_data w).2 = call_log w ++ [c] ∨
  call_log (process svc settings input_data w).2 = call_log w ++ [c; PollerResult].
Proof.
  intros Hc Hsel. rewrite process_world, process_body_world, analyze_configured by done.
  unfold selected_call in Hsel.
  destruct (input_data !! "file_bytes") as [v|].
  - injection Hsel as <-. destruct (run_job _ _ w) as [r w'] eqn:Hrun.
    eauto using run_job_log.
  - destruct (input_data !! "file_url") as [u|]; [|discriminate].
    injection Hsel as <-. destruct (run_job _ _ w) as [r w'] eqn:Hrun.
    eauto using run_job_log.
Qed.

(** X2.  One call of [process] invokes at most one operation of the
    service, the one that the keys of the request select, and waits at
    most once, for the poller of that operation; it never invokes both
    operations and never invokes one twice. *)
Theorem at_most_one_submit_and_one_wait {S : Type} (svc : Service S)
    (settings : Settings) (input_data : gmap string pyval) (w : world S) :
  ∃ new,
    call_log (process svc settings input_data w).2 = call_log w ++ new ∧
    (new = [] ∨
     ∃ c, selected_call settings input_data = Some c ∧
          (new = [c] ∨ new = [c; PollerResult])).
Proof.
  destruct (credentials_configured_dec settings) as [Hc|Hc].
  - destruct (selected_call settings input_data) as [c|] eqn:Hsel.
    + destruct (process_log_selected svc settings input_data w c Hc Hsel) as [H|H];
        eexists; (split; [exact H|]); right; exists c; auto.
    + unfold selected_call in Hsel.
      destruct (input_data !! "file_bytes") eqn:Hb; [discriminate|].
      destruct (input_data !! "file_url") eqn:Hu; [discriminate|].
      exists []. rewrite process_no_input by done. cbn. rewrite app_nil_r. auto.
  - exists []. rewrite process_not_configured by done. cbn. rewrite app_nil_r. auto.
Qed.

(** X1.  With the credentials configured, a request without the key
    ['file_bytes'] and with the key ['file_url'] is served from the URL:
    the analyze-from-URL operation is invoked with the value of
    ['file_url'] and the model identifier, and the analyze-from-bytes
    operation is not invoked - although the input schema lists
    ['file_bytes'] as required. *)
Theorem url_is_used_without_bytes_key {S : Type} (svc : Service S)
    (settings : Settings) (input_data : gmap string pyval) (w : world S) (u : pyval) :
  credentials_configured settings →
  input_data !! "file_bytes" = None →
  input_data !! "file_url" = Some u →
  (∃ rest,
      call_log (process svc settings input_data w).2 =
        call_log w ++ AnalyzeUrl (PREBUILT_MODEL settings) u :: rest ∧
      (rest = [] ∨ rest = [PollerResult]) ∧
      ¬ invoked_bytes (AnalyzeUrl (PREBUILT_MODEL settings) u :: rest)) ∧
  entry "required" input_schema = PList [PStr "file_bytes"].
Proof.
  intros Hc Hb Hu. split; [|done].
  assert (Hsel : selected_call settings input_data =
                 Some (AnalyzeUrl (PREBUILT_MODEL settings) u)).
  { unfold selected_call. by rewrite Hb, Hu. }
  destruct (process_log_selected svc settings input_data w _ Hc Hsel) as [H|H];
    eexists; (split; [exact H|]); (split; [auto|]);
    intros (m & v & Hin); no_such_call Hin.
Qed.

(** X1 at a request that carries only a ['file_url']. *)
Lemma url_is_used_without_bytes_key_witness :
  (∃ rest,
      call_log (process (Stub.answering Stub.two_pages) Stub.configured
                  Stub.req_url Stub.w0).2 =
        call_log Stub.w0 ++
          AnalyzeUrl "prebuilt-layout" (PStr "https://example.org/a.pdf") :: rest ∧
      (rest = [] ∨ rest = [PollerResult]) ∧
      ¬ invoked_bytes
          (AnalyzeUrl "prebuilt-layout" (PStr "https://example.org/a.pdf") :: rest)) ∧
  entry "required" input_schema = PList [PStr "file_bytes"].
Proof.
  apply (url_is_used_without_bytes_key (Stub.answering Stub.two_pages)
           Stub.configured Stub.req_url Stub.w0).
  - split; eexists; (split; [reflexivity|discriminate]).
  - vm_compute. reflexivity.
  - vm_compute. reflexivity.
Defined.

(** X10.  A call that returns the success record had its credentials
    configured and invoked exactly two operations: the one that the keys
    of the request select, then the wait on its poller. *)
Theorem successful_call_submits_and_waits_once {S : Type} (svc : Service S)
    (settings : Settings) (input_data : gmap string pyval) (w : world S)
    (d : gmap string pyval) (w' : world S) :
  process svc settings input_data w = (Return (PDict d), w') →
  success_shape d →
  credentials_configured settings ∧
  ∃ c, selected_call settings input_data = Some c ∧
       call_log w' = call_log w ++ [c; PollerResult].
Proof.
  intros Hrun Hshape.
  destruct (process_success_inv _ _ _ _ _ _ Hrun Hshape) as (result & doc & Han & _).
  apply analyze_Return in Han
    as (Hc & c & op & p & s1 & Hsel & _ & _ & Hlog).
  split; [done|]. exists c. split; [|done]. unfold selected_call.
  destruct Hsel as [(v & -> & -> & _) | (u & -> & -> & -> & _)]; done.
Qed.

(** X10 at the two-page example. *)
Lemma successful_call_submits_and_waits_once_witness :
  credentials_configured Stub.configured ∧
  ∃ c, selected_call Stub.configured Stub.req_bytes = Some c ∧
       call_log {| svc_state := 2;
                   call_log := [AnalyzeBytes "prebuilt-layout" Stub.pdf; PollerResult] |} =
         call_log Stub.w0 ++ [c; PollerResult].
Proof.
  eapply (successful_call_submits_and_waits_once (Stub.answering Stub.two_pages)
            Stub.configured Stub.req_bytes Stub.w0).
  - vm_compute. reflexivity.
  - split; [eexists; reflexivity|]. split; [eexists; reflexivity|reflexivity].
Defined.

(** ** What a call depends on *)

Lemma declared_input_properties (k : string) :
  k ∈ declared_properties input_schema ↔ k = "file_bytes" ∨ k = "file_url".
Proof.
  change (declared_properties input_schema) with
    (dom ({[ "file_bytes" := PDict {[
                "type" := PStr "string";
                "description" := PStr "Base64 encoded file bytes or binary data" ]};
             "file_url" := PDict {[
                "type" := PStr "string";
                "description" := PStr "URL to the document to extract" ]} ]}
          : gmap string pyval)).
  rewrite dom_insert, dom_singleton. set_solver.
Qed.

(** X3.  [process] reads the request through the keys that the input
    schema declares and through no other: two requests that agree on
    ['file_bytes'] and ['file_url'] are treated alike, whatever else they
    carry (a ['file_path'], which the docstring names, is ignored). *)
Theorem only_declared_keys_are_read {S : Type} (svc : Service S)
    (settings : Settings) (input1 input2 : gmap string pyval) (w : world S) :
  (∀ k, k ∈ declared_properties input_schema → input1 !! k = input2 !! k) →
  process svc settings input1 w = process svc settings input2 w.
Proof.
  intros H.
  assert (Hb : input1 !! "file_bytes" = input2 !! "file_bytes")
    by (apply H, declared_input_properties; auto).
  assert (Hu : input1 !! "file_url" = input2 !! "file_url")
    by (apply H, declared_input_properties; auto).
  unfold process, try_except_Exception, process_body, bind, analyze.
  by rewrite Hb, Hu.
Qed.

(** X3 at a request and the same request with a ['file_path'] added. *)
Lemma only_declared_keys_are_read_witness :
  process (Stub.answering Stub.two_pages) Stub.configured Stub.req_bytes Stub.w0 =
  process (Stub.answering Stub.two_pages) Stub.configured
    (<["file_path" := PStr "/tmp/a.pdf"]> Stub.req_bytes) Stub.w0.
Proof.
  apply (only_declared_keys_are_read (Stub.answering Stub.two_pages) Stub.configured
           Stub.req_bytes (<["file_path" := PStr "/tmp/a.pdf"]> Stub.req_bytes) Stub.w0).
  intros k [-> | ->]%declared_input_properties; vm_compute; reflexivity.
Defined.

(** X4.  [process] reaches the service only through a client built
    from the configured endpoint and key, and only with the configured
    model identifier: two services that behave alike for that client and
    that model give the same outcome and the same world, however they
    differ elsewhere. *)
Theorem service_is_used_with_configured_client {S : Type} (svc1 svc2 : Service S)
    (settings : Settings) (input_data : gmap string pyval) (w : world S) :
  (∀ v s,
      begin_analyze_document svc1 (configured_client settings)
        (PREBUILT_MODEL settings) v s =
      begin_analyze_document svc2 (configured_client settings)
        (PREBUILT_MODEL settings) v s) →
  (∀ u s,
      begin_analyze_document_from_url svc1 (configured_client settings)
        (PREBUILT_MODEL settings) u s =
      begin_analyze_document_from_url svc2 (configured_client settings)
        (PREBUILT_MODEL settings) u s) →
  process svc1 settings input_data w = process svc2 settings input_data w.
Proof.
  intros Hbytes Hurl.
  destruct (credentials_configured_dec settings) as [Hc|Hc].
  - assert (Han : analyze svc1 settings input_data w = analyze svc2 settings input_data w).
    { rewrite !analyze_configured by done. unfold run_job.
      destruct (input_data !! "file_bytes") as [v|]; [by rewrite Hbytes|].
      destruct (input_data !! "file_url") as [u|]; [by rewrite Hurl|done]. }
    unfold process, try_except_Exception, process_body, bind. by rewrite Han.
  - by rewrite !process_not_configured.
Qed.

(** X4 at a service that answers every client and one that answers the
    configured client only. *)
Lemma service_is_used_with_configured_client_witness :
  process (Stub.answering Stub.two_pages) Stub.configured Stub.req_url Stub.w0 =
  process (picky_service Stub.two_pages) Stub.configured Stub.req_url Stub.w0.
Proof.
  apply (service_is_used_with_configured_client (Stub.answering Stub.two_pages)
           (picky_service Stub.two_pages) Stub.configured Stub.req_url Stub.w0).
  - intros v s. reflexivity.
  - intros u s. reflexivity.
Defined.

(** X11.  A call that invoked no operation of the service was refused
    by one of the two checks of the adapter: it left the world as it was
    and returned the failure record of the credentials check (credentials not
    configured) or that of the input check (credentials configured,
    neither key present).  Every other outcome, failure records
    included, comes after an operation of the service was invoked. *)
Theorem no_operation_means_refused {S : Type} (svc : Service S) (settings : Settings)
    (input_data : gmap string pyval) (w : world S) (r : outcome pyval) (w' : world S) :
  process svc settings input_data w = (r, w') →
  call_log w' = call_log w →
  w' = w ∧
  ((¬ credentials_configured settings ∧
    r = Return (error_record "Azure Form Recognizer credentials not configured")) ∨
   (credentials_configured settings ∧
    input_data !! "file_bytes" = None ∧ input_data !! "file_url" = None ∧
    r = Return (error_record "Either 'file_bytes' or 'file_url' must be provided"))).
Proof.
  intros Hrun Hlog. destruct (credentials_configured_dec settings) as [Hc|Hc].
  - destruct (selected_call settings input_data) as [c|] eqn:Hsel.
    + exfalso.
      pose proof (process_log_selected svc settings input_data w c Hc Hsel) as H.
      rewrite Hrun in H. cbn in H. rewrite Hlog in H.
      destruct H as [H|H]; symmetry in H; by apply app_cons_neq in H.
    + unfold selected_call in Hsel.
      destruct (input_data !! "file_bytes") eqn:Hb; [discriminate|].
      destruct (input_data !! "file_url") eqn:Hu; [discriminate|].
      rewrite process_no_input in Hrun by done. injection Hrun as <- <-.
      split; [done|]. right. done.
  - rewrite process_not_configured in Hrun by done. injection Hrun as <- <-.
    split; [done|]. by left.
Qed.

(** X11 at a call without credentials. *)
Lemma no_operation_means_refused_witness :
  Stub.w0 = Stub.w0 ∧
  ((¬ credentials_configured Stub.no_credentials ∧
    Return (error_record "Azure Form Recognizer credentials not configured") =
    Return (error_record "Azure Form Recognizer credentials not configured")) ∨
   (credentials_configured Stub.no_credentials ∧
    Stub.req_bytes !! "file_bytes" = None ∧ Stub.req_bytes !! "file_url" = None ∧
    Return (error_record "Azure Form Recognizer credentials not configured") =
    Return (error_record "Either 'file_bytes' or 'file_url' must be provided"))).
Proof.
  apply (no_operation_means_refused (Stub.failing Stub.quota) Stub.no_credentials
           Stub.req_bytes Stub.w0).
  - vm_compute. reflexivity.
  - reflexivity.
Defined.

(** ** The returned record and the declared output schema *)

Lemma declared_output_properties :
  declared_properties output_schema = {[ "result"; "metadata" ]}.
Proof.
  change (declared_properties output_schema) with
    (dom ({[ "result" := PDict {[
                "type" := PStr "string";
                "description" := PStr "Extracted text content" ]};
             "metadata" := PDict {[
                "type" := PStr "object";
                "description" :=
                  PStr "Extraction metadata including pages and tables" ]} ]}
          : gmap string pyval)).
  by rewrite dom_insert_L, dom_singleton_L.
Qed.

(** X12.  The success record has exactly the keys that the output
    schema declares (['result'] and ['metadata']); the failure record
    has not: its key ['error'] is not declared, the declared
    ['metadata'] is absent, and its keys are ['error'] and ['result']. *)
Theorem returned_record_against_output_schema {S : Type} (svc : Service S)
    (settings : Settings) (input_data : gmap string pyval) (w : world S)
    (d : gmap string pyval) (w' : world S) :
  process svc settings input_data w = (Return (PDict d), w') →
  (success_shape d → dom d = declared_properties output_schema) ∧
  (failure_shape d →
     dom d = {[ "error"; "result" ]} ∧
     ("error" ∉ declared_properties output_schema) ∧
     ("metadata" ∉ dom d)).
Proof.
  intros Hrun. rewrite declared_output_properties. split.
  - intros Hshape.
    destruct (process_success_inv _ _ _ _ _ _ Hrun Hshape)
      as (result & doc & _ & Hdoc & Hflat).
    rewrite (flatten_strings _ _ _ Hdoc) in Hflat.
    apply (f_equal (λ o, match o with
                         | Return (PDict m) => dom m
                         | _ => ∅
                         end)) in Hflat.
    cbn beta iota in Hflat. rewrite <- Hflat.
    by rewrite dom_insert_L, dom_singleton_L.
  - intros Hshape.
    destruct (process_failure_inv _ _ _ _ _ _ Hrun Hshape)
      as (e & message & _ & _ & _ & ->).
    rewrite dom_insert_L, dom_singleton_L. split; [done|].
    split; intros [H|H]%elem_of_union; apply elem_of_singleton in H; discriminate H.
Qed.

(** X12 at a call that is refused for lack of input. *)
Lemma returned_record_against_output_schema_witness :
  ∃ d,
    process (Stub.answering Stub.two_pages) Stub.configured Stub.req_neither Stub.w0 =
      (Return (PDict d), Stub.w0) ∧
    (success_shape d → dom d = declared_properties output_schema) ∧
    (failure_shape d →
       dom d = {[ "error"; "result" ]} ∧
       ("error" ∉ declared_properties output_schema) ∧
       ("metadata" ∉ dom d)).
Proof.
  eexists. split; [vm_compute; reflexivity|].
  eapply (returned_record_against_output_schema (Stub.answering Stub.two_pages)
            Stub.configured Stub.req_neither Stub.w0).
  vm_compute. reflexivity.
Defined.
